(** * arxiv-feed: a shallow embedding of the feed package

  The development follows the layout of the Python package:
  - [PyStr]: the handful of [str] methods the code relies on;
  - [Domain]: [feed/domain.py] (Author, Media and the derived MIME type);
  - [Etree]: the part of lxml's element tree the serializer extensions use;
  - [ArxivExtension]: the feed-level extension of
    [feed/serializers/extensions.py];
  - [ArxivEntryExtension]: the per-entry accumulator and its two renderers;
  - [Database]: the announce query of [feed/database.py];
  - [FetchData]: the specifier validator exercised by
    [feed/tests/test_fetching.py]. *)

From Stdlib Require Import ZArith Ascii String Lia.
From stdpp Require Import base option list strings gmap fin_maps.

Local Open Scope Z_scope.

(** ** Python string helpers *)

Module PyStr.

(** The double-quote character, used by the anchors of the RSS renderer. *)
Definition dquote : string := String (ascii_of_nat 34) EmptyString.

(** [sep.join(parts)]. *)
Fixpoint join (sep : string) (parts : list string) : string :=
  match parts with
  | [] => EmptyString
  | [p] => p
  | p :: rest => p +:+ sep +:+ join sep rest
  end.

(** [s.replace(a, b)] for single characters [a] and [b]. *)
Fixpoint replace_char (a b : ascii) (s : string) : string :=
  match s with
  | EmptyString => EmptyString
  | String c rest =>
      String (if Ascii.eqb c a then b else c) (replace_char a b rest)
  end.

(** [s.split(sep)] for a single-character separator: the result is never
    empty, and a separator at either end yields an empty first or last
    piece. *)
Fixpoint split (sep : ascii) (s : string) : list string :=
  match s with
  | EmptyString => [EmptyString]
  | String c rest =>
      if Ascii.eqb c sep then EmptyString :: split sep rest
      else match split sep rest with
           | [] => [String c EmptyString]
           | p :: ps => String c p :: ps
           end
  end.

(** ASCII lower-casing, as [str.lower] acts on the taxonomy's alphabet. *)
Definition lower_char (c : ascii) : ascii :=
  let n := nat_of_ascii c in
  if ((65 <=? n) && (n <=? 90))%nat then ascii_of_nat (n + 32) else c.

Fixpoint lower (s : string) : string :=
  match s with
  | EmptyString => EmptyString
  | String c rest => String (lower_char c) (lower rest)
  end.

(** The ASCII characters [str.strip] removes: tab, line feed, vertical tab,
    form feed, carriage return, the four separators 28-31 and space. *)
Definition is_space (c : ascii) : bool :=
  let n := nat_of_ascii c in
  (((9 <=? n) && (n <=? 13)) || ((28 <=? n) && (n <=? 31)) || (n =? 32))%nat.

(** [s.strip() == ""]: every character of [s] is white space. *)
Fixpoint is_blank (s : string) : bool :=
  match s with
  | EmptyString => true
  | String c rest => is_space c && is_blank rest
  end.

End PyStr.

(** ** feed/domain.py *)

Module Domain.

(** Modelled from the spec: the [Format] enumeration of [feed.consts], which
    the data model gives as PDF, PS, HTML and further members. *)
Inductive Format : Type :=
| PDF
| PS
| HTML
| OTHER (name : string).

#[global] Instance Format_eq_dec : EqDecision Format.
Proof. solve_decision. Defined.

(** How a [Format] member is rendered inside an f-string.  The enumeration
    is declared in [feed.consts], which is not among the sources at hand, so
    its rendering is an interface the development is parametrised by. *)
Class FormatStr := format_str : Format -> string.

(** A sample rendering, by lower-case value, to evaluate the renderers on
    concrete inputs. *)
Definition value_format_str : FormatStr :=
  fun f =>
    match f with
    | PDF => "pdf"
    | PS => "ps"
    | HTML => "html"
    | OTHER name => name
    end.

Record Author : Type := mkAuthor {
  last_name : string;
  full_name : string;
  initials : string;
  affiliations : list string
}.

Record Media : Type := mkMedia {
  title : string;
  url : string;
  format : Format
}.

(** The [Media.type] property. *)
Definition type `{FormatStr} (m : Media) : string :=
  if bool_decide (format m ∈ [PDF; PS])
  then "application/" +:+ format_str (format m)
  else "text/html".

End Domain.

(** ** The lxml element tree, as far as the extensions touch it *)

Module Etree.

(** An attribute mapping, in insertion order. *)
Definition Attrib : Type := list (string * string).

(** An element: tag, attributes, text (None until assigned) and children.
    An lxml element has one parent, so no element is shared between two
    places of a tree, and an in-place change of an element is the tree with
    that element replaced. *)
#[warnings="-register-all"]
Inductive Element : Type :=
  mkElement {
    tag : string;
    attrib : Attrib;
    text : option string;
    children : list Element
  }.

Definition set_text (t : option string) (e : Element) : Element :=
  mkElement (tag e) (attrib e) t (children e).

Definition set_children (cs : list Element) (e : Element) : Element :=
  mkElement (tag e) (attrib e) (text e) cs.

(** [parent.append(child)]. *)
Definition append (child parent : Element) : Element :=
  set_children (children parent ++ [child]) parent.

(** [etree.SubElement(parent, tag, attrib)]: a fresh element with no text
    and no children becomes the last child of [parent]. *)
Definition SubElement (parent : Element) (tg : string) (at_ : Attrib)
  : Element :=
  append (mkElement tg at_ None []) parent.

(** Work done through the handle that [etree.SubElement] returned: while
    nothing else is appended to [parent], that handle is its last child. *)
Definition on_last_child (f : Element -> Element) (parent : Element)
  : Element :=
  match reverse (children parent) with
  | [] => parent
  | c :: before => set_children (reverse before ++ [f c]) parent
  end.

(** What an f-string prints for the [text] attribute. *)
Definition text_str (t : option string) : string :=
  match t with
  | Some s => s
  | None => "None"
  end.

End Etree.

(** ** feed/serializers/extensions.py: the feed-level extension *)

Module ArxivExtension.
Import Etree.

Definition extend_atom (atom_feed : Element) : Element := atom_feed.

Definition extend_rss (rss_feed : Element) : Element := rss_feed.

Definition extend_ns : list (string * string) :=
  [ ("arxiv", "http://arxiv.org/schemas/atom");
    ("content", "http://purl.org/rss/1.0/modules/content/");
    ("taxo", "http://purl.org/rss/1.0/modules/taxonomy/");
    ("syn", "http://purl.org/rss/1.0/modules/syndication/");
    ("admin", "http://webns.net/mvcb/");
    ("media", "http://search.yahoo.com/mrss") ].

End ArxivExtension.

Module ArxivAtomExtension.

Definition extend_ns : list (string * string) :=
  [ ("arxiv", "http://arxiv.org/schemas/atom") ].

End ArxivAtomExtension.

(** ** feed/serializers/extensions.py: the per-entry extension *)

Module ArxivEntryExtension.
Import PyStr Domain Etree.

(** The private members of the extension object.  The primary category is
    annotated [str], but [extend_atom] hands it to lxml as the attribute
    mapping of the new element, so it is kept as an attribute mapping; the
    DOI mapping keeps its insertion order, which is the order of iteration. *)
Record State : Type := mkState {
  arxiv_authors : list Author;
  arxiv_media : list Media;
  arxiv_comment : option string;
  arxiv_primary_category : option Attrib;
  arxiv_doi : option (list (string * string));
  arxiv_affiliation : option string;
  arxiv_journal_ref : option string;
  arxiv_affiliations : gmap string (list string)
}.

(** [__init__]: every member empty. *)
Definition init : State :=
  mkState [] [] None None None None None ∅.

(** Truth value of an optional string: None and the empty string are false. *)
Definition truthy_str (o : option string) : bool :=
  match o with
  | Some (String _ _) => true
  | _ => false
  end.

(** Truth value of an optional mapping: None and the empty mapping are
    false. *)
Definition truthy_dict (o : option (list (string * string))) : bool :=
  match o with
  | Some (_ :: _) => true
  | _ => false
  end.

Section Render.
Context `{FormatStr}.

(** One iteration of the loop of [__add_media]. *)
Definition add_media_step (entry : Element) (media : Media) : Element :=
  let entry := SubElement entry "{http://search.yahoo.com/mrss}group" [] in
  let entry :=
    on_last_child
      (fun group =>
         on_last_child (set_text (Some (title media)))
           (SubElement group "{http://search.yahoo.com/mrss}title" []))
      entry in
  on_last_child
    (fun group =>
       SubElement group "{http://search.yahoo.com/mrss}content"
         [("url", url media); ("type", type media)])
    entry.

Definition __add_media (self : State) (entry : Element) : Element :=
  fold_left add_media_step (arxiv_media self) entry.

(** [element = etree.SubElement(author, ...); element.text = affiliation]. *)
Definition add_affiliation (author : Element) (affiliation : string)
  : Element :=
  on_last_child (set_text (Some affiliation))
    (SubElement author "{http://arxiv.org/schemas/atom}affiliation" []).

(** [self.__arxiv_affiliations.get(name, [])]; a name that is None is no key
    of the mapping. *)
Definition affiliations_get (self : State) (name : option string)
  : list string :=
  match name with
  | Some n => default [] (arxiv_affiliations self !! n)
  | None => []
  end.

(** The body of [for author_child in author].  The loop is taken over the
    children present when it starts: the elements the body appends carry the
    affiliation tag, never ["name"], so it makes no difference whether the
    iterator reaches them ([author_scan_agrees] below). *)
Definition author_child_step (self : State) (author author_child : Element)
  : Element :=
  if String.eqb (tag author_child) "name" then
    fold_left add_affiliation (affiliations_get self (text author_child))
      author
  else author.

(** The same loop read with an iterator that walks the live child list, so
    that the elements the body appends come up as well: [i] is the position
    of the next child and [fuel] bounds the number of visits. *)
Fixpoint author_scan (self : State) (fuel i : nat) (author : Element)
  : option Element :=
  match fuel with
  | O => None
  | S fuel =>
      match children author !! i with
      | None => Some author
      | Some author_child =>
          author_scan self fuel (S i)
            (author_child_step self author author_child)
      end
  end.

(** The body of [for entry_child in entry] in [extend_atom]. *)
Definition entry_child_step (self : State) (entry_child : Element) : Element :=
  if String.eqb (tag entry_child) "author" then
    fold_left (author_child_step self) (children entry_child) entry_child
  else entry_child.

(** One iteration of [for doi in self.__arxiv_doi]: iterating a mapping
    yields its keys. *)
Definition doi_step (entry : Element) (doi : string) : Element :=
  on_last_child (set_text (Some doi))
    (SubElement entry "{http://arxiv.org/schemas/atom}doi" []).

(** [extend_atom]: the four conditional appends, the affiliation scan over
    the entry's children, then the media groups. *)
Definition extend_atom (self : State) (entry : Element) : Element :=
  let entry :=
    if truthy_str (arxiv_comment self) then
      on_last_child (set_text (arxiv_comment self))
        (SubElement entry "{http://arxiv.org/schemas/atom}comment" [])
    else entry in
  let entry :=
    if truthy_dict (arxiv_primary_category self) then
      SubElement entry "{http://arxiv.org/schemas/atom}primary_category"
        (default [] (arxiv_primary_category self))
    else entry in
  let entry :=
    if truthy_str (arxiv_journal_ref self) then
      on_last_child (set_text (arxiv_journal_ref self))
        (SubElement entry "{http://arxiv.org/schemas/atom}journal_ref" [])
    else entry in
  let entry :=
    if truthy_dict (arxiv_doi self) then
      fold_left doi_step (fst <$> default [] (arxiv_doi self)) entry
    else entry in
  let entry :=
    set_children (entry_child_step self <$> children entry) entry in
  __add_media self entry.

(** One iteration of [for author in self.__arxiv_authors]; the accumulator is
    the pair of the local variables [description] and [first]. *)
Definition rss_author_step (base_server : string) (acc : string * bool)
  (author : Author) : string * bool :=
  let '(description, first) := acc in
  let '(description, first) :=
    if first then (description, false)
    else (description +:+ ", ", first) in
  let name :=
    last_name author +:+ "," +:+
    "+" +:+ replace_char " " "+" (initials author) in
  (description +:+
     ("<a href=" +:+ dquote +:+ "http://" +:+ base_server +:+
      "/search/?query=" +:+ name +:+ "&" +:+
      "searchtype=author" +:+ dquote +:+ ">" +:+ full_name author +:+ "</a>"),
   first).

(** The body of [for entry_child in entry] in [extend_rss]. *)
Definition rss_child_step (base_server : string) (self : State)
  (entry_child : Element) : Element :=
  if String.eqb (tag entry_child) "description" then
    let description := "<p>Authors: " in
    let '(description, _) :=
      fold_left (rss_author_step base_server) (arxiv_authors self)
        (description, true) in
    let description :=
      description +:+ ("</p><p>" +:+ text_str (text entry_child) +:+ "</p>") in
    set_text (Some description) entry_child
  else entry_child.

(** [base_server] is [current_app.config["BASE_SERVER"]]. *)
Definition extend_rss (base_server : string) (self : State) (entry : Element)
  : Element :=
  let entry :=
    set_children (rss_child_step base_server self <$> children entry) entry in
  __add_media self entry.

End Render.

(** The setters. *)
Definition author (a : Author) (self : State) : State :=
  mkState (arxiv_authors self ++ [a]) (arxiv_media self) (arxiv_comment self)
    (arxiv_primary_category self) (arxiv_doi self) (arxiv_affiliation self)
    (arxiv_journal_ref self) (arxiv_affiliations self).

Definition media (m : Media) (self : State) : State :=
  mkState (arxiv_authors self) (arxiv_media self ++ [m]) (arxiv_comment self)
    (arxiv_primary_category self) (arxiv_doi self) (arxiv_affiliation self)
    (arxiv_journal_ref self) (arxiv_affiliations self).

Definition comment (text : string) (self : State) : State :=
  mkState (arxiv_authors self) (arxiv_media self) (Some text)
    (arxiv_primary_category self) (arxiv_doi self) (arxiv_affiliation self)
    (arxiv_journal_ref self) (arxiv_affiliations self).

Definition primary_category (text : Attrib) (self : State) : State :=
  mkState (arxiv_authors self) (arxiv_media self) (arxiv_comment self)
    (Some text) (arxiv_doi self) (arxiv_affiliation self)
    (arxiv_journal_ref self) (arxiv_affiliations self).

Definition journal_ref (text : string) (self : State) : State :=
  mkState (arxiv_authors self) (arxiv_media self) (arxiv_comment self)
    (arxiv_primary_category self) (arxiv_doi self) (arxiv_affiliation self)
    (Some text) (arxiv_affiliations self).

Definition doi (doi_list : list (string * string)) (self : State) : State :=
  mkState (arxiv_authors self) (arxiv_media self) (arxiv_comment self)
    (arxiv_primary_category self) (Some doi_list) (arxiv_affiliation self)
    (arxiv_journal_ref self) (arxiv_affiliations self).

Definition affiliation (full_name : string) (affiliations : list string)
  (self : State) : State :=
  mkState (arxiv_authors self) (arxiv_media self) (arxiv_comment self)
    (arxiv_primary_category self) (arxiv_doi self) (arxiv_affiliation self)
    (arxiv_journal_ref self)
    (<[full_name := affiliations]> (arxiv_affiliations self)).

End ArxivEntryExtension.

(** ** feed/database.py *)

Module Database.

(** Modelled from the spec: the update and metadata rows of [feed.tables],
    which is not among the sources at hand; only the columns the announce
    query reads are kept.  Dates are points on the integer time line. *)
Module ArXivUpdate.
Record t : Type := mk {
  document_id : Z;
  category : string;
  archive : string;
  action : string;
  version : Z;
  date : Z
}.
End ArXivUpdate.

Module ArXivMetadata.
Record t : Type := mk {
  document_id : Z;
  is_current : Z
}.
End ArXivMetadata.

Definition Row : Type := ArXivUpdate.t * ArXivMetadata.t.

(** The two tables the query reads. *)
Record Tables : Type := mkTables {
  updates : list ArXivUpdate.t;
  metadata : list ArXivMetadata.t
}.

(** [column.in_(values)]. *)
Definition in_ (x : string) (values : list string) : bool :=
  existsb (String.eqb x) values.

(** [ArXivUpdate.query.join(metadata_alias, ArXivUpdate.document_id ==
    metadata_alias.document_id)], with [add_entity(metadata_alias)]. *)
Definition join (db : Tables) : list Row :=
  u ← updates db;
  m ← metadata db;
  if ArXivUpdate.document_id u =? ArXivMetadata.document_id m
  then [(u, m)] else [].

(** The condition handed to [filter]. *)
Definition filter_clause (version_threshold first_day last_day : Z)
  (archives categories : list string) (row : Row) : bool :=
  let '(u, m) := row in
  (in_ (ArXivUpdate.category u) categories
   || in_ (ArXivUpdate.archive u) archives)
  && ((negb (String.eqb (ArXivUpdate.action u) "replace")
       || (String.eqb (ArXivUpdate.action u) "replace"
           && (ArXivUpdate.version u <=? version_threshold)))
      && negb (String.eqb (ArXivUpdate.action u) "abs_only")
      && (first_day <=? ArXivUpdate.date u)
      && (ArXivUpdate.date u <=? last_day)
      && (ArXivMetadata.is_current m =? 1)).

Section Query.

(** The query has no ORDER BY: the order in which the engine yields the
    matching rows is its own choice. *)
Variable engine_order : list Row -> list Row.

Definition get_announce_papers (db : Tables) (first_day last_day : Z)
  (archives categories : list string) : list Row :=
  let result_limit := 15%nat in
  let version_threshold := 4 in
  let query_result :=
    take result_limit
      (engine_order
         (List.filter
            (filter_clause version_threshold first_day last_day
               archives categories)
            (join db))) in
  query_result.

End Query.

(** Sample tables: four updates announced on 2023-10-26 and 2023-10-27 (days
    738819 and 738820 of the proleptic calendar) and their metadata rows,
    document 1 having a superseded and a current version. *)
Definition sample_tables : Tables :=
  mkTables
    [ ArXivUpdate.mk 1 "cs.CV" "cs" "new" 1 738819;
      ArXivUpdate.mk 2 "cs.CV" "cs" "replace" 5 738819;
      ArXivUpdate.mk 3 "math.NT" "math" "abs_only" 1 738819;
      ArXivUpdate.mk 4 "cs.CV" "cs" "cross" 1 738820 ]
    [ ArXivMetadata.mk 1 0;
      ArXivMetadata.mk 1 1;
      ArXivMetadata.mk 2 1;
      ArXivMetadata.mk 3 1;
      ArXivMetadata.mk 4 1 ].

(** An engine that yields the rows in table order. *)
Definition table_order (rows : list Row) : list Row := rows.

End Database.

(** ** feed/fetch_data.py: the specifier validator *)

Module FetchData.
Import PyStr.

(** Modelled from the spec: the error catalogue of the validator; the module
    that raises these errors is not part of the sources at hand. *)
Inductive FeedError : Type :=
| InvalidArchiveSpecification
| BadStructure
| BadArchive (archive : string)
| BadSubjectClass (subject : string).


Inductive result (A : Type) : Type :=
| Ok (a : A)
| Raise (e : FeedError).
Arguments Ok {A} a.
Arguments Raise {A} e.

(** Modelled from the spec: the two-level taxonomy, a mapping from each
    archive to its subject-class codes, both in canonical casing. *)
Definition Taxonomy : Type := list (string * list string).

(** Case-insensitive search for an archive. *)
Definition find_archive (taxonomy : Taxonomy) (archive : string)
  : option (string * list string) :=
  List.find (fun entry => String.eqb (lower (fst entry)) (lower archive))
    taxonomy.

(** Case-insensitive search for a subject class among the given codes. *)
Definition find_subject (subjects : list string) (subject : string)
  : option string :=
  List.find (fun code => String.eqb (lower code) (lower subject)) subjects.

(** Is the subject class known under any archive? *)
Definition known_subject (taxonomy : Taxonomy) (subject : string) : bool :=
  existsb (fun entry => bool_decide (is_Some (find_subject (snd entry) subject)))
    taxonomy.

(** What one valid token adds to the result. *)
Inductive Contribution : Type :=
| ToArchives (archive : string)
| ToCategories (category : string).

(** Modelled from the spec: rules 2 to 5 of the validator, for one token. *)
Definition validate_token (taxonomy : Taxonomy) (token : string)
  : result Contribution :=
  match split "." token with
  | [archive] =>
      match find_archive taxonomy archive with
      | None => Raise (BadArchive archive)
      | Some (canonical, _) => Ok (ToArchives canonical)
      end
  | [archive; subject] =>
      if String.eqb archive EmptyString then
        if String.eqb subject EmptyString then Raise BadStructure
        else Raise (BadArchive EmptyString)
      else if String.eqb subject EmptyString then Raise BadStructure
      else
        match find_archive taxonomy archive with
        | None => Raise (BadArchive archive)
        | Some (canonical, subjects) =>
            if negb (known_subject taxonomy subject)
            then Raise (BadSubjectClass subject)
            else
              match find_subject subjects subject with
              | None => Raise (BadSubjectClass subject)
              | Some code => Ok (ToCategories (canonical +:+ "." +:+ code))
              end
        end
  | _ => Raise BadStructure
  end.

(** Modelled from the spec: the tokens are validated in input order, each
    through the rules in order, and the first failure is raised.  Rule 1
    meets the last token: a trailing ['+'] leaves it empty. *)
Fixpoint validate_tokens (taxonomy : Taxonomy) (tokens : list string)
  (archives categories : list string) : result (list string * list string) :=
  match tokens with
  | [] => Ok (archives, categories)
  | token :: rest =>
      if bool_decide (rest = []) && String.eqb token EmptyString
      then Raise InvalidArchiveSpecification
      else
        match validate_token taxonomy token with
        | Raise e => Raise e
        | Ok (ToArchives a) =>
            validate_tokens taxonomy rest (archives ++ [a]) categories
        | Ok (ToCategories c) =>
            validate_tokens taxonomy rest archives (categories ++ [c])
        end
  end.

(** Modelled from the spec: [validate_request] of [feed/fetch_data.py], which
    is not among the sources at hand.  A specifier that is empty or white
    space only is refused as a whole; any other is split at ['+'] and its
    tokens are validated one by one. *)
Definition validate (taxonomy : Taxonomy) (spec : string)
  : result (list string * list string) :=
  if is_blank spec
  then Raise InvalidArchiveSpecification
  else validate_tokens taxonomy (split "+" spec) [] [].

(** Modelled from the spec: the entries of the taxonomy that the testable
    properties name. *)
Definition sample_taxonomy : Taxonomy :=
  [ ("cs", ["AI"; "CG"; "CV"]);
    ("hep-lat", []);
    ("math", ["NT"]);
    ("physics", []) ].

End FetchData.

(** ** What the renderers are expected to produce *)

Module Rendered.
Import PyStr Domain Etree ArxivEntryExtension.

(** An element that carries text only. *)
Definition text_element (tg txt : string) : Element :=
  mkElement tg [] (Some txt) [].

(** Zero or one text element, according to whether the field is present. *)
Definition optional_text_element (tg : string) (field : option string)
  : list Element :=
  match field with
  | None => []
  | Some txt => if decide (txt = EmptyString) then [] else [text_element tg txt]
  end.

Definition comment_elements (st : State) : list Element :=
  optional_text_element "{http://arxiv.org/schemas/atom}comment"
    (arxiv_comment st).

Definition journal_ref_elements (st : State) : list Element :=
  optional_text_element "{http://arxiv.org/schemas/atom}journal_ref"
    (arxiv_journal_ref st).

(** The primary category travels in the attributes; the element has no
    text. *)
Definition primary_category_elements (st : State) : list Element :=
  match arxiv_primary_category st with
  | None | Some [] => []
  | Some attrs =>
      [mkElement "{http://arxiv.org/schemas/atom}primary_category" attrs
         None []]
  end.

(** One element per entry of the DOI mapping, in the mapping's order. *)
Definition doi_elements (st : State) : list Element :=
  match arxiv_doi st with
  | None => []
  | Some entries =>
      (fun entry => text_element "{http://arxiv.org/schemas/atom}doi"
                      (fst entry)) <$> entries
  end.

(** The affiliations listed under a name, or none when the name is no key. *)
Definition listed_affiliations (st : State) (name : option string)
  : list string :=
  match name with
  | Some n =>
      match arxiv_affiliations st !! n with
      | Some affiliations => affiliations
      | None => []
      end
  | None => []
  end.

(** The affiliation elements an author element receives: for each of its
    name children, one per affiliation listed under that name. *)
Definition affiliation_elements (st : State) (author : Element)
  : list Element :=
  name_child ← List.filter (fun c => bool_decide (tag c = "name"))
                 (children author);
  text_element "{http://arxiv.org/schemas/atom}affiliation"
    <$> listed_affiliations st (text name_child).

(** An existing child of the entry after the Atom renderer: authors gain
    their affiliation elements, everything else is untouched. *)
Definition with_affiliations (st : State) (child : Element) : Element :=
  if decide (tag child = "author")
  then set_children (children child ++ affiliation_elements st child) child
  else child.

Section Media.
Context `{FormatStr}.

(** The group appended for one media item. *)
Definition media_group (m : Media) : Element :=
  mkElement "{http://search.yahoo.com/mrss}group" [] None
    [ text_element "{http://search.yahoo.com/mrss}title" (title m);
      mkElement "{http://search.yahoo.com/mrss}content"
        [("url", url m); ("type", type m)] None [] ].

Definition media_groups (st : State) : list Element :=
  media_group <$> arxiv_media st.

End Media.

(** The state with its media items dropped, every other member kept. *)
Definition without_media (st : State) : State :=
  mkState (arxiv_authors st) [] (arxiv_comment st)
    (arxiv_primary_category st) (arxiv_doi st) (arxiv_affiliation st)
    (arxiv_journal_ref st) (arxiv_affiliations st).

(** The name put in the author query: ["Last,+Initials"], the spaces of the
    initials replaced by ['+']. *)
Definition query_name (a : Author) : string :=
  last_name a +:+ ",+" +:+ replace_char " " "+" (initials a).

(** The search-by-author URL on the configured server. *)
Definition search_by_author_url (base_server name : string) : string :=
  "http://" +:+ base_server +:+ "/search/?query=" +:+ name +:+
  "&searchtype=author".

(** An HTML anchor. *)
Definition anchor (href label : string) : string :=
  "<a href=" +:+ dquote +:+ href +:+ dquote +:+ ">" +:+ label +:+ "</a>".

Definition author_anchor (base_server : string) (a : Author) : string :=
  anchor (search_by_author_url base_server (query_name a)) (full_name a).

(** The text the RSS renderer gives a description element. *)
Definition rss_description (base_server : string) (st : State)
  (original : option string) : string :=
  "<p>Authors: " +:+
  join ", " (author_anchor base_server <$> arxiv_authors st) +:+
  "</p><p>" +:+ text_str original +:+ "</p>".

(** The members of the state, to say which of them an operation leaves
    alone. *)
Inductive Member : Type :=
| Authors | MediaItems | Comment | PrimaryCategory | Doi | Affiliation
| JournalRef | Affiliations.

#[global] Instance Member_eq_dec : EqDecision Member.
Proof. solve_decision. Defined.

(** [st'] agrees with [st] on every member other than [m]. *)
Definition same_except (m : Member) (st st' : State) : Prop :=
  (m ≠ Authors → arxiv_authors st' = arxiv_authors st) ∧
  (m ≠ MediaItems → arxiv_media st' = arxiv_media st) ∧
  (m ≠ Comment → arxiv_comment st' = arxiv_comment st) ∧
  (m ≠ PrimaryCategory →
   arxiv_primary_category st' = arxiv_primary_category st) ∧
  (m ≠ Doi → arxiv_doi st' = arxiv_doi st) ∧
  (m ≠ Affiliation → arxiv_affiliation st' = arxiv_affiliation st) ∧
  (m ≠ JournalRef → arxiv_journal_ref st' = arxiv_journal_ref st) ∧
  (m ≠ Affiliations → arxiv_affiliations st' = arxiv_affiliations st).

(** Calling a setter once per value, in list order. *)
Definition call_each {A : Type} (setter : A → State → State)
  (values : list A) (st : State) : State :=
  fold_left (fun s v => setter v s) values st.

(** A populated state and an entry tree, to evaluate the renderers on. *)
Definition sample_state : State :=
  media (mkMedia "PDF" "http://arxiv.org/pdf/1234.5678" PDF)
    (affiliation "Very Real Sr." ["Cornell University"]
       (author (mkAuthor "Emeno" "L Emeno" "L" [])
          (author (mkAuthor "Sr." "Very Real Sr." "V R" ["Cornell University"])
             (comment "12 pages" init)))).

Definition sample_entry : Element :=
  mkElement "item" [] None
    [ text_element "title" "A title";
      text_element "description" "An abstract";
      mkElement "author" [] None [text_element "name" "Very Real Sr."] ].

End Rendered.

(** ** What a valid specifier is expected to yield *)

Module Specifier.
Import PyStr FetchData.

(** A token denotes a contribution when it names, up to letter case, an
    archive of the taxonomy, or an archive and one of its subject classes
    joined by a dot; the contribution carries the taxonomy's casing. *)
Definition denotes (taxonomy : Taxonomy) (token : string) (c : Contribution)
  : Prop :=
  match c with
  | ToArchives a =>
      (∃ subjects, (a, subjects) ∈ taxonomy) ∧ lower a = lower token
  | ToCategories cat =>
      ∃ a subjects s ta ts,
        (a, subjects) ∈ taxonomy ∧ s ∈ subjects ∧
        token = ta +:+ "." +:+ ts ∧
        lower a = lower ta ∧ lower s = lower ts ∧
        cat = a +:+ "." +:+ s
  end.

Definition archive_of (c : Contribution) : option string :=
  match c with
  | ToArchives a => Some a
  | ToCategories _ => None
  end.

Definition category_of (c : Contribution) : option string :=
  match c with
  | ToArchives _ => None
  | ToCategories cat => Some cat
  end.

End Specifier.

(** ** feed/factory.py: the name of the configuration class *)

Module Factory.
Import PyStr.

(** The ASCII letters: the characters [str.title] treats as cased. *)
Definition is_cased (c : ascii) : bool :=
  let n := nat_of_ascii c in
  (((65 <=? n) && (n <=? 90)) || ((97 <=? n) && (n <=? 122)))%nat.

Definition upper_char (c : ascii) : ascii :=
  let n := nat_of_ascii c in
  if ((97 <=? n) && (n <=? 122))%nat then ascii_of_nat (n - 32) else c.

(** The scan of [str.title] over ASCII characters: a character that follows
    a letter is lower-cased, any other character is upper-cased. *)
Fixpoint title_from (previous_is_cased : bool) (s : string) : string :=
  match s with
  | EmptyString => EmptyString
  | String c rest =>
      String (if previous_is_cased then lower_char c else upper_char c)
        (title_from (is_cased c) rest)
  end.

(** Every character of the string is an ASCII character. *)
Fixpoint is_ascii (s : string) : bool :=
  match s with
  | EmptyString => true
  | String c rest => (nat_of_ascii c <? 128)%nat && is_ascii rest
  end.

(** [s.title()] for a string of ASCII characters.  [str.title] follows the
    Unicode character tables; a string with other characters is outside
    what is modelled here, and no value is given for it. *)
Definition title (s : string) : option string :=
  if is_ascii s then Some (title_from false s) else None.

(** [os.environ.get("ARXIV_FEED_CONFIGURATION", "production")]. *)
Definition configuration (environ : gmap string string) : string :=
  default "production" (environ !! "ARXIV_FEED_CONFIGURATION").

(** The argument [create_web_app] gives to [import_string]:
    [f"feed.config.{configuration.title()}"], for a configuration name of
    ASCII characters. *)
Definition config_import_string (environ : gmap string string)
  : option string :=
  title_cased ← title (configuration environ);
  Some ("feed.config." +:+ title_cased).

End Factory.

(** ** Vocabulary for further properties of the query and the renderers *)

Module Further.
Import PyStr Domain Etree ArxivEntryExtension Database.

(** The joined rows that pass the filter of the announce query. *)
Definition matching_rows (db : Tables) (first_day last_day : Z)
  (archives categories : list string) : list Row :=
  List.filter (filter_clause 4 first_day last_day archives categories)
    (join db).

(** A tag in Clark notation lies in a namespace that the feed-level
    extension declares. *)
Definition in_declared_namespace (tg : string) : Prop :=
  ∃ prefix uri,
    (prefix, uri) ∈ ArxivExtension.extend_ns ∧
    String.prefix ("{" +:+ uri +:+ "}") tg = true.

(** An element and its children carry declared namespaces. *)
Definition declared_deep (x : Element) : Prop :=
  in_declared_namespace (tag x)
  ∧ Forall (fun y => in_declared_namespace (tag y)) (children x).

(** An author element as the feed builder makes it for the sample state: a
    name and an address. *)
Definition sample_author_element : Element :=
  mkElement "author" [] None
    [ mkElement "name" [] (Some "Very Real Sr.") [];
      mkElement "email" [] (Some "real@example.org") [] ].

(** An entry holding a title, that author and an author no affiliation is
    recorded for. *)
Definition sample_atom_entry : Element :=
  mkElement "entry" [] None
    [ mkElement "title" [] (Some "A title") [];
      sample_author_element;
      mkElement "author" [] None [mkElement "name" [] (Some "L Emeno") []] ].

End Further.

(** ** The rendered entry, spelled out

    The shapes below are written with the element constructor and character
    codes only, so that they stand on their own beside the operations the
    renderers are built from. *)

Module Expected.
Import PyStr Domain Etree ArxivEntryExtension Rendered.

(** [t] is [s] with every space turned into a plus sign and every other
    character kept. *)
Inductive plus_for_space : string → string → Prop :=
| plus_for_space_end : plus_for_space EmptyString EmptyString
| plus_for_space_space (s t : string) :
    plus_for_space s t → plus_for_space (String " " s) (String "+" t)
| plus_for_space_other (c : ascii) (s t : string) :
    c ≠ " "%char → plus_for_space s t →
    plus_for_space (String c s) (String c t).

(** [q] is the name put in the author query for [a]: the last name, a comma,
    a plus sign, and the initials with their spaces turned into plus
    signs. *)
Definition is_query_name (a : Author) (q : string) : Prop :=
  ∃ plussed : string,
    plus_for_space (initials a) plussed ∧
    q = last_name a +:+ ",+" +:+ plussed.

(** The anchor of an author: the href, between double quotes (character 34),
    is the search-by-author URL on the server for the query name [q]; the
    label is the full name. *)
Definition search_anchor (base_server : string) (a : Author) (q : string)
  : string :=
  "<a href=" +:+
  String "034"
    ("http://" +:+ base_server +:+ "/search/?query=" +:+ q +:+
     "&searchtype=author" +:+
     String "034" (">" +:+ full_name a +:+ "</a>")).

(** An existing child of the entry after the Atom renderer: an author keeps
    its tag, attributes and text and has its affiliation elements behind its
    children; any other child is as it was. *)
Definition author_with_affiliations (st : State) (child : Element) : Element :=
  if decide (tag child = "author")
  then mkElement (tag child) (attrib child) (text child)
         (children child ++ affiliation_elements st child)
  else child.

(** How many of the elements carry the tag. *)
Definition count_tag (tg : string) (elements : list Element) : nat :=
  length (List.filter (fun x => bool_decide (tag x = tg)) elements).

(** A state with every member populated; its media item is an HTML page, so
    its type does not depend on how formats are rendered. *)
Definition full_state : State :=
  media (mkMedia "Abstract" "http://arxiv.org/abs/1234.5678" HTML)
    (affiliation "Very Real Sr." ["Cornell University"]
       (doi [("10.1000/182", "doi")]
          (journal_ref "J. Irrepr. Res. 1 (2023)"
             (primary_category [("term", "cs.AI")]
                (author
                   (mkAuthor "Sr." "Very Real Sr." "V R" ["Cornell University"])
                   (comment "12 pages" init)))))).

(** An entry with a title, an author recorded in [full_state] and one that
    is not. *)
Definition full_entry : Element :=
  mkElement "entry" [] None
    [ mkElement "title" [] (Some "A title") [];
      mkElement "author" [] None
        [ mkElement "name" [] (Some "Very Real Sr.") [];
          mkElement "email" [] (Some "real@example.org") [] ];
      mkElement "author" [] None [mkElement "name" [] (Some "L Emeno") []] ].

End Expected.

(** * Properties *)

(** ** Strings *)

Section StringFacts.
Import PyStr.

Lemma sapp_cons (c : ascii) (s t : string) :
  String c s +:+ t = String c (s +:+ t).
Proof. reflexivity. Qed.


Lemma sapp_nil_r (s : string) : s +:+ EmptyString = s.
Proof.
  induction s as [|c s IH]; [reflexivity|].
  rewrite sapp_cons. by rewrite IH.
Qed.

Lemma sapp_assoc (s t u : string) : (s +:+ t) +:+ u = s +:+ (t +:+ u).
Proof.
  induction s as [|c s IH]; [reflexivity|].
  rewrite !sapp_cons. by rewrite IH.
Qed.

(** [join] as the first piece followed by separator-prefixed pieces. *)
Lemma join_cons (sep p : string) (ps : list string) :
  join sep (p :: ps) =
  p +:+ fold_right (fun x acc => sep +:+ x +:+ acc) EmptyString ps.
Proof.
  revert p. induction ps as [|q ps IH]; intros p.
  - cbn. by rewrite sapp_nil_r.
  - change (join sep (p :: q :: ps)) with (p +:+ sep +:+ join sep (q :: ps)).
    by rewrite IH.
Qed.

End StringFacts.

(** ** Element trees *)

Section EtreeFacts.
Import Etree.

Lemma set_children_same (e : Element) : set_children (children e) e = e.
Proof. by destruct e. Qed.

Lemma on_last_child_append (f : Element -> Element) (c p : Element) :
  on_last_child f (append c p) = append (f c) p.
Proof.
  destruct p as [tg at_ tx cs]. unfold on_last_child, append, set_children.
  cbn [tag attrib text children]. rewrite reverse_snoc.
  by rewrite reverse_involutive.
Qed.

Lemma on_last_child_SubElement f (p : Element) tg at_ :
  on_last_child f (SubElement p tg at_) = append (f (mkElement tg at_ None [])) p.
Proof. apply on_last_child_append. Qed.

(** Appending one computed child per list item. *)
Lemma fold_left_append {A : Type} (g : A -> Element) (l : list A)
  (e : Element) :
  fold_left (fun acc x => append (g x) acc) l e =
  set_children (children e ++ (g <$> l)) e.
Proof.
  revert e. induction l as [|x l IH]; intros e; cbn.
  - by rewrite app_nil_r, set_children_same.
  - rewrite IH. destruct e as [tg at_ tx cs]. unfold append, set_children.
    cbn. by rewrite <- app_assoc.
Qed.

End EtreeFacts.

(** ** The per-entry renderers *)

Section RenderFacts.
Context `{Domain.FormatStr}.
Import PyStr Domain Etree ArxivEntryExtension Rendered.

Lemma set_children_set_children (cs cs' : list Element) (e : Element) :
  set_children cs' (set_children cs e) = set_children cs' e.
Proof. reflexivity. Qed.

Lemma children_set_children (cs : list Element) (e : Element) :
  children (set_children cs e) = cs.
Proof. reflexivity. Qed.

(** Appending to what was appended before. *)
Lemma set_children_app (cs l : list Element) (e : Element) :
  set_children (children (set_children cs e) ++ l) (set_children cs e) =
  set_children (cs ++ l) e.
Proof. reflexivity. Qed.

Lemma add_media_step_append (e : Element) (m : Media) :
  add_media_step e m = append (media_group m) e.
Proof.
  unfold add_media_step.
  rewrite on_last_child_SubElement, on_last_child_append. cbv beta.
  rewrite on_last_child_SubElement. reflexivity.
Qed.

Lemma add_media_children (st : State) (e : Element) :
  __add_media st e = set_children (children e ++ media_groups st) e.
Proof.
  unfold __add_media, media_groups.
  rewrite <- fold_left_append. revert e.
  induction (arxiv_media st) as [|m ms IH]; intros e; [reflexivity|].
  cbn [fold_left]. by rewrite add_media_step_append, IH.
Qed.

(** The comment and journal-reference steps of the Atom renderer. *)
Lemma optional_text_step (tg : string) (field : option string) (e : Element) :
  (if truthy_str field
   then on_last_child (set_text field) (SubElement e tg [])
   else e) =
  set_children (children e ++ optional_text_element tg field) e.
Proof.
  destruct field as [[|c s]|]; cbn [truthy_str optional_text_element].
  - rewrite decide_True by done. by rewrite app_nil_r, set_children_same.
  - rewrite decide_False by done. by rewrite on_last_child_SubElement.
  - by rewrite app_nil_r, set_children_same.
Qed.

Lemma primary_category_step (st : State) (e : Element) :
  (if truthy_dict (arxiv_primary_category st)
   then SubElement e "{http://arxiv.org/schemas/atom}primary_category"
          (default [] (arxiv_primary_category st))
   else e) =
  set_children (children e ++ primary_category_elements st) e.
Proof.
  unfold primary_category_elements.
  destruct (arxiv_primary_category st) as [[|a l]|]; cbn [truthy_dict];
    try by rewrite app_nil_r, set_children_same.
  reflexivity.
Qed.

Lemma doi_step_append (e : Element) (k : string) :
  doi_step e k =
  append (text_element "{http://arxiv.org/schemas/atom}doi" k) e.
Proof. unfold doi_step. by rewrite on_last_child_SubElement. Qed.

Lemma doi_loop (st : State) (e : Element) :
  (if truthy_dict (arxiv_doi st)
   then fold_left doi_step (fst <$> default [] (arxiv_doi st)) e
   else e) =
  set_children (children e ++ doi_elements st) e.
Proof.
  unfold doi_elements.
  destruct (arxiv_doi st) as [[|a l]|]; cbn [truthy_dict];
    try by rewrite app_nil_r, set_children_same.
  cbn [default from_option id].
  generalize (a :: l). intros ks. revert e.
  induction ks as [|k ks IH]; intros e.
  - cbn. by rewrite app_nil_r, set_children_same.
  - cbn [fmap list_fmap fold_left]. rewrite IH, doi_step_append.
    unfold append. rewrite set_children_app. by rewrite <- app_assoc.
Qed.

Lemma add_affiliation_append (a : Element) (aff : string) :
  add_affiliation a aff =
  append (text_element "{http://arxiv.org/schemas/atom}affiliation" aff) a.
Proof. unfold add_affiliation. by rewrite on_last_child_SubElement. Qed.

Lemma affiliations_get_listed (st : State) (name : option string) :
  affiliations_get st name = listed_affiliations st name.
Proof.
  destruct name as [n|]; [|reflexivity]. cbn.
  by destruct (arxiv_affiliations st !! n).
Qed.

Lemma author_child_step_children (st : State) (a c : Element) :
  author_child_step st a c =
  set_children
    (children a ++
     (if bool_decide (tag c = "name")
      then text_element "{http://arxiv.org/schemas/atom}affiliation"
             <$> listed_affiliations st (text c)
      else [])) a.
Proof.
  unfold author_child_step.
  destruct (String.eqb_spec (tag c) "name") as [Heq|Hne].
  - rewrite bool_decide_eq_true_2 by done.
    rewrite affiliations_get_listed, <- fold_left_append.
    generalize (listed_affiliations st (text c)). intros affs. revert a.
    induction affs as [|x affs IH]; intros a; [reflexivity|].
    cbn [fold_left]. by rewrite add_affiliation_append, IH.
  - rewrite bool_decide_eq_false_2 by done.
    by rewrite app_nil_r, set_children_same.
Qed.

(** The inner loop of the affiliation scan, over any list of children. *)
Lemma author_loop_children (st : State) (cs : list Element) (a : Element) :
  fold_left (author_child_step st) cs a =
  set_children
    (children a ++
     (name_child ← List.filter (fun c => bool_decide (tag c = "name")) cs;
      text_element "{http://arxiv.org/schemas/atom}affiliation"
        <$> listed_affiliations st (text name_child))) a.
Proof.
  revert a. induction cs as [|c cs IH]; intros a.
  - cbn. by rewrite app_nil_r, set_children_same.
  - cbn [fold_left List.filter]. rewrite IH, author_child_step_children.
    rewrite set_children_app.
    destruct (bool_decide (tag c = "name")); cbn.
    + by rewrite <- app_assoc.
    + by rewrite app_nil_r.
Qed.

(** Past the children that are names, the live scan changes nothing. *)
Lemma author_scan_no_names (st : State) (extra done : list Element)
  (a : Element) (fuel : nat) :
  children a = done ++ extra →
  Forall (fun c => tag c ≠ "name") extra →
  (length extra < fuel)%nat →
  author_scan st fuel (length done) a = Some a.
Proof.
  revert done fuel.
  induction extra as [|c extra IH]; intros done fuel Hch Hextra Hfuel;
    (destruct fuel as [|fuel]; [cbn in Hfuel; lia|]); cbn [author_scan].
  - rewrite Hch, app_nil_r, lookup_ge_None_2 by lia. done.
  - assert (children a !! length done = Some c) as ->
      by (rewrite Hch; by apply list_lookup_middle).
    apply Forall_cons in Hextra as [Hc Hextra].
    rewrite author_child_step_children, bool_decide_eq_false_2 by done.
    rewrite app_nil_r, set_children_same.
    replace (S (length done)) with (length (done ++ [c]))
      by (rewrite length_app; cbn; lia).
    apply IH; [by rewrite <- app_assoc|done|cbn in Hfuel; lia].
Qed.

Lemma affiliation_elements_not_name (st : State) (name : option string) :
  Forall (fun c => tag c ≠ "name")
    (text_element "{http://arxiv.org/schemas/atom}affiliation"
       <$> listed_affiliations st name).
Proof. apply Forall_fmap, Forall_true. intros x. by cbn. Qed.

Lemma author_scan_general (st : State) (rest done extra : list Element)
  (a : Element) (fuel : nat) :
  children a = done ++ rest ++ extra →
  Forall (fun c => tag c ≠ "name") extra →
  (length (children (fold_left (author_child_step st) rest a))
   < fuel + length done)%nat →
  author_scan st fuel (length done) a =
  Some (fold_left (author_child_step st) rest a).
Proof.
  revert done extra a fuel.
  induction rest as [|c rest IH]; intros done extra a fuel Hch Hextra Hfuel.
  - cbn [fold_left] in *. eapply author_scan_no_names; [done..|].
    rewrite Hch, !length_app in Hfuel. cbn [app length] in Hfuel |- *. lia.
  - assert (length (children a) ≤
            length (children
                      (fold_left (author_child_step st) (c :: rest) a)))%nat
      as Hgrow
      by (rewrite author_loop_children, children_set_children, length_app;
          lia).
    rewrite Hch, !length_app in Hgrow. cbn [length] in Hgrow.
    destruct fuel as [|fuel]; [lia|]. cbn [author_scan fold_left] in *.
    assert (children a !! length done = Some c) as ->
      by (rewrite Hch; by apply list_lookup_middle).
    replace (S (length done)) with (length (done ++ [c]))
      by (rewrite length_app; cbn; lia).
    pose proof (author_child_step_children st a c) as Hstep.
    apply (IH (done ++ [c])
             (extra ++
              (if bool_decide (tag c = "name")
               then text_element "{http://arxiv.org/schemas/atom}affiliation"
                      <$> listed_affiliations st (text c)
               else []))).
    + rewrite Hstep, children_set_children, Hch.
      by rewrite <- !app_assoc.
    + apply Forall_app. split; [done|].
      destruct (bool_decide (tag c = "name"));
        [apply affiliation_elements_not_name|constructor].
    + rewrite length_app. cbn [length]. lia.
Qed.

(** The live scan of an author's children ends, given fuel beyond the
    number of children after the loop, with the outcome of the loop over the
    children present at its start. *)
Lemma author_scan_agrees (st : State) (a : Element) (fuel : nat) :
  (length (children (fold_left (author_child_step st) (children a) a))
   < fuel)%nat →
  author_scan st fuel 0 a =
  Some (fold_left (author_child_step st) (children a) a).
Proof.
  intros Hfuel.
  apply (author_scan_general st (children a) [] [] a fuel);
    [by rewrite app_nil_r|constructor|].
  cbn [length]. lia.
Qed.

Lemma entry_child_step_with_affiliations (st : State) (c : Element) :
  entry_child_step st c = with_affiliations st c.
Proof.
  unfold entry_child_step, with_affiliations.
  destruct (String.eqb_spec (tag c) "author") as [Heq|Hne].
  - rewrite decide_True by done. apply author_loop_children.
  - by rewrite decide_False.
Qed.

(** None of the elements the Atom renderer appends is an author. *)
Lemma appended_not_author (st : State) :
  Forall (fun e => tag e ≠ "author")
    (comment_elements st ++ primary_category_elements st ++
     journal_ref_elements st ++ doi_elements st).
Proof.
  rewrite !Forall_app. repeat split.
  - unfold comment_elements, optional_text_element.
    destruct (arxiv_comment st); [case_decide|]; by repeat constructor.
  - unfold primary_category_elements.
    destruct (arxiv_primary_category st) as [[|a l]|]; by repeat constructor.
  - unfold journal_ref_elements, optional_text_element.
    destruct (arxiv_journal_ref st); [case_decide|]; by repeat constructor.
  - unfold doi_elements. destruct (arxiv_doi st); [|constructor].
    apply Forall_fmap, Forall_true. intros x. by cbn.
Qed.

Lemma with_affiliations_not_author (st : State) (l : list Element) :
  Forall (fun e => tag e ≠ "author") l →
  with_affiliations st <$> l = l.
Proof.
  induction 1 as [|e l He _ IH]; [reflexivity|].
  cbn. rewrite IH. f_equal. unfold with_affiliations. by rewrite decide_False.
Qed.

(** The Atom renderer in closed form. *)
Lemma extend_atom_closed_form (st : State) (entry : Element) :
  extend_atom st entry =
  set_children
    ((with_affiliations st <$> children entry) ++
     comment_elements st ++ primary_category_elements st ++
     journal_ref_elements st ++ doi_elements st ++ media_groups st) entry.
Proof.
  unfold extend_atom.
  rewrite optional_text_step, primary_category_step, optional_text_step.
  rewrite doi_loop, add_media_children.
  rewrite !set_children_app, !set_children_set_children.
  rewrite !children_set_children.
  fold (comment_elements st). fold (journal_ref_elements st).
  rewrite <- !app_assoc.
  rewrite (list_fmap_ext _ _ _ (fun _ c _ => entry_child_step_with_affiliations st c)).
  rewrite fmap_app.
  rewrite (with_affiliations_not_author st _ (appended_not_author st)).
  by rewrite <- !app_assoc.
Qed.

(** The RSS renderer's author loop, started after the first author. *)
Lemma rss_loop_later (base_server : string) (authors : list Author)
  (description : string) :
  fold_left (rss_author_step base_server) authors (description, false) =
  (description +:+
   fold_right (fun x acc => ", " +:+ x +:+ acc) EmptyString
     (author_anchor base_server <$> authors), false).
Proof.
  revert description. induction authors as [|a authors IH]; intros d.
  - cbn. by rewrite sapp_nil_r.
  - cbn [fold_left]. unfold rss_author_step at 2. rewrite IH.
    f_equal. cbn [fmap list_fmap foldr fold_right].
    unfold author_anchor, anchor, search_by_author_url, query_name.
    by rewrite !sapp_assoc.
Qed.

Lemma rss_loop (base_server : string) (authors : list Author)
  (description : string) :
  fst (fold_left (rss_author_step base_server) authors (description, true)) =
  description +:+ join ", " (author_anchor base_server <$> authors).
Proof.
  destruct authors as [|a authors].
  - cbn. by rewrite sapp_nil_r.
  - cbn [fold_left]. unfold rss_author_step at 2. rewrite rss_loop_later.
    cbn [fst fmap list_fmap]. rewrite join_cons.
    unfold author_anchor, anchor, search_by_author_url, query_name.
    by rewrite !sapp_assoc.
Qed.

Lemma rss_child_step_text (base_server : string) (st : State) (c : Element) :
  rss_child_step base_server st c =
  if decide (tag c = "description")
  then set_text (Some (rss_description base_server st (text c))) c
  else c.
Proof.
  unfold rss_child_step.
  destruct (String.eqb_spec (tag c) "description") as [Heq|Hne].
  - rewrite decide_True by done.
    pose proof (rss_loop base_server (arxiv_authors st) "<p>Authors: ") as Hl.
    destruct (fold_left _ _ _) as [d b]. cbn [fst] in Hl. subst d.
    unfold rss_description. by rewrite !sapp_assoc.
  - by rewrite decide_False.
Qed.

End RenderFacts.

Section RenderClaims.
Context `{Domain.FormatStr}.
Import PyStr Domain Etree ArxivEntryExtension Rendered.

(** Turning spaces into plus signs is what [replace_char] does. *)
Lemma plus_for_space_replace_char (s t : string) :
  Expected.plus_for_space s t → replace_char " " "+" s = t.
Proof.
  induction 1 as [|s t _ IH|ch s t Hch _ IH]; cbn [replace_char].
  - reflexivity.
  - by rewrite IH.
  - rewrite IH. destruct (Ascii.eqb_spec ch " "); [done|reflexivity].
Qed.

Lemma replace_char_plus_for_space (s : string) :
  Expected.plus_for_space s (replace_char " " "+" s).
Proof.
  induction s as [|ch s IH]; cbn [replace_char]; [constructor|].
  destruct (Ascii.eqb_spec ch " ") as [->|Hne]; by constructor.
Qed.

Lemma search_anchor_query_name (base_server : string) (a : Author)
  (q : string) :
  Expected.is_query_name a q →
  Expected.search_anchor base_server a q = author_anchor base_server a.
Proof.
  intros (plussed & Hplus & ->).
  apply plus_for_space_replace_char in Hplus. subst plussed.
  unfold Expected.search_anchor, author_anchor, anchor, search_by_author_url,
    query_name, dquote.
  rewrite !sapp_assoc. reflexivity.
Qed.

Lemma search_anchors_query_names (base_server : string)
  (authors : list Author) (names : list string) :
  Forall2 Expected.is_query_name authors names →
  zip_with (Expected.search_anchor base_server) authors names =
  author_anchor base_server <$> authors.
Proof.
  induction 1 as [|a q authors names Hq _ IH]; [reflexivity|].
  cbn. by rewrite IH, (search_anchor_query_name base_server a q Hq).
Qed.

(** C2: after [extend_rss], a description child of the entry is still a
    description with its attributes and children, and its text is
    ["<p>Authors: "], then one anchor per accumulated author in accumulation
    order, separated by [", "], then ["</p><p>"], the original description
    text and ["</p>"].  The href of an anchor, between double quotes, is
    [http://<base server>/search/?query=<name>&searchtype=author], where
    [<name>] is the last name, [",+"] and the initials with every space
    turned into a plus sign; the label of the anchor is the author's full
    name.  Such names exist for every list of authors.  (For a description
    without text, Python prints [None] for the original text.) *)
Theorem extend_rss_description_text (base_server : string) (st : State)
  (entry : Element) (i : nat) (c : Element) :
  children entry !! i = Some c →
  tag c = "description" →
  (∃ names : list string,
     Forall2 Expected.is_query_name (arxiv_authors st) names)
  ∧ (∀ names : list string,
       Forall2 Expected.is_query_name (arxiv_authors st) names →
       children (extend_rss base_server st entry) !! i =
       Some (mkElement "description" (attrib c)
               (Some ("<p>Authors: " +:+
                      join ", "
                        (zip_with (Expected.search_anchor base_server)
                           (arxiv_authors st) names) +:+
                      "</p><p>" +:+
                      match text c with
                      | Some original => original
                      | None => "None"
                      end +:+
                      "</p>"))
               (children c))).
Proof.
  intros Hc Htag. split.
  - exists ((fun a => last_name a +:+ ",+" +:+
                      replace_char " " "+" (initials a))
            <$> arxiv_authors st).
    apply Forall2_fmap_r, Forall_Forall2_diag, Forall_true. intros a.
    exists (replace_char " " "+" (initials a)).
    split; [apply replace_char_plus_for_space|reflexivity].
  - intros names Hnames. unfold extend_rss.
    rewrite add_media_children, !children_set_children.
    rewrite lookup_app_l by (rewrite length_fmap; by eapply lookup_lt_Some).
    rewrite list_lookup_fmap, Hc. cbn [fmap option_fmap option_map].
    rewrite rss_child_step_text, decide_True by done.
    rewrite (search_anchors_query_names base_server _ _ Hnames).
    unfold rss_description, set_text. rewrite Htag.
    by destruct (text c).
Qed.

Lemma with_affiliations_spelled_out (st : State) (c : Element) :
  with_affiliations st c = Expected.author_with_affiliations st c.
Proof. reflexivity. Qed.

Lemma count_tag_app (tg : string) (l k : list Element) :
  Expected.count_tag tg (l ++ k) =
  (Expected.count_tag tg l + Expected.count_tag tg k)%nat.
Proof. unfold Expected.count_tag. by rewrite List.filter_app, length_app. Qed.

Lemma count_tag_none (tg : string) (l : list Element) :
  Forall (fun x => tag x ≠ tg) l → Expected.count_tag tg l = 0%nat.
Proof.
  unfold Expected.count_tag. induction 1 as [|x l Hx _ IH]; [done|].
  cbn. by rewrite bool_decide_eq_false_2.
Qed.

(** C3: [extend_atom] leaves the entry's own tag, attributes and text alone,
    and the children of the entry it returns are: the existing children,
    where every author element has gained, behind its own children and for
    each of its name children, one affiliation element per affiliation listed
    under that name; then the comment element; then the primary-category
    element, whose value travels in the attributes; then the
    journal-reference element; then one DOI element per entry of the DOI
    mapping; then the media groups.  Among the appended children there is
    exactly one comment element when the comment is neither None nor empty,
    and none otherwise.  With every field absent the entry comes back
    unchanged. *)
Theorem extend_atom_appends_in_order (st : State) (entry : Element) :
  tag (extend_atom st entry) = tag entry
  ∧ attrib (extend_atom st entry) = attrib entry
  ∧ text (extend_atom st entry) = text entry
  ∧ children (extend_atom st entry) =
      (Expected.author_with_affiliations st <$> children entry) ++
      comment_elements st ++ primary_category_elements st ++
      journal_ref_elements st ++ doi_elements st ++ media_groups st
  ∧ Expected.count_tag "{http://arxiv.org/schemas/atom}comment"
      (drop (length (children entry)) (children (extend_atom st entry))) =
    (if decide (arxiv_comment st = None ∨ arxiv_comment st = Some EmptyString)
     then 0%nat else 1%nat)
  ∧ extend_atom init entry = entry.
Proof.
  rewrite !extend_atom_closed_form, !children_set_children.
  split; [done|]. split; [done|]. split; [done|]. split; [|split].
  - reflexivity.
  - rewrite drop_app_length' by (by rewrite length_fmap).
    rewrite !count_tag_app.
    rewrite (count_tag_none _ (primary_category_elements st)),
      (count_tag_none _ (journal_ref_elements st)),
      (count_tag_none _ (doi_elements st)),
      (count_tag_none _ (media_groups st)).
    + unfold comment_elements, optional_text_element.
      destruct (arxiv_comment st) as [[|ch txt]|].
      * rewrite decide_True by done. by rewrite decide_True by auto.
      * rewrite decide_False by done. rewrite decide_False; [done|].
        intros [?|?]; discriminate.
      * by rewrite decide_True by auto.
    + unfold media_groups. apply Forall_fmap, Forall_true. by intros m.
    + unfold doi_elements. destruct (arxiv_doi st); [|constructor].
      apply Forall_fmap, Forall_true. by intros d.
    + unfold journal_ref_elements, optional_text_element.
      destruct (arxiv_journal_ref st); [case_decide|]; by repeat constructor.
    + unfold primary_category_elements.
      destruct (arxiv_primary_category st) as [[|a l]|]; by repeat constructor.
  - cbn -[with_affiliations]. rewrite app_nil_r.
    rewrite (list_fmap_ext (with_affiliations init) id (children entry)).
    + rewrite list_fmap_id. apply set_children_same.
    + intros _ c _. unfold with_affiliations. case_decide; [|done].
      unfold affiliation_elements.
      induction (List.filter _ (children c)) as [|n ns IH].
      * cbn. by rewrite app_nil_r, set_children_same.
      * cbn. cbn in IH. destruct (text n); cbn; apply IH.
Qed.

(** C6: what [extend_rss] appends for the accumulated media items is the
    same sequence of groups that [extend_atom] appends for them: on top of
    what each renderer yields without media, one group per item in
    accumulation order, holding a title element with the item's title and a
    content element whose [url] and [type] attributes are the item's URL and
    derived type. *)
Theorem extend_rss_same_media_groups (base_server : string) (st : State)
  (entry : Element) :
  children (extend_atom st entry) =
    children (extend_atom (without_media st) entry) ++
    (media_group <$> arxiv_media st)
  ∧ children (extend_rss base_server st entry) =
    children (extend_rss base_server (without_media st) entry) ++
    (media_group <$> arxiv_media st).
Proof.
  split.
  - rewrite !extend_atom_closed_form, !children_set_children.
    unfold media_groups at 2. cbn [without_media arxiv_media fmap list_fmap].
    rewrite !app_nil_r. by rewrite <- !app_assoc.
  - unfold extend_rss. rewrite !add_media_children, !children_set_children.
    unfold media_groups at 2. cbn [without_media arxiv_media fmap list_fmap].
    by rewrite app_nil_r.
Qed.

(** C8: [Media.type] is ["application/"] followed by the rendering of the
    format when the format is PDF or PS, and ["text/html"] for every other
    format; it depends on the format field alone. *)
Theorem media_type_derived (m : Media) :
  (format m = PDF ∨ format m = PS →
   type m = "application/" +:+ format_str (format m))
  ∧ (format m ≠ PDF → format m ≠ PS → type m = "text/html")
  ∧ (∀ m' : Media, format m' = format m → type m' = type m).
Proof.
  unfold type. repeat split.
  - intros Hf. rewrite bool_decide_eq_true_2; [done|].
    rewrite !elem_of_cons. destruct Hf as [-> | ->]; auto.
  - intros Hpdf Hps. rewrite bool_decide_eq_false_2; [done|].
    rewrite !elem_of_cons, elem_of_nil. tauto.
  - by intros m' ->.
Qed.

End RenderClaims.

Lemma extend_rss_description_text_witness :
  Etree.children
    (@ArxivEntryExtension.extend_rss Domain.value_format_str "arxiv.org"
       Rendered.sample_state Rendered.sample_entry) !! 1%nat =
  Some (Etree.mkElement "description" []
          (Some
             ("<p>Authors: <a href=" +:+
              String "034"
                ("http://arxiv.org/search/?query=Sr.,+V+R&searchtype=author"
                 +:+
                 String "034"
                   (">Very Real Sr.</a>, <a href=" +:+
                    String "034"
                      ("http://arxiv.org/search/?query=Emeno,+L&searchtype=author"
                       +:+
                       String "034"
                         ">L Emeno</a></p><p>An abstract</p>")))))
          []).
Proof.
  apply (proj2 (@extend_rss_description_text Domain.value_format_str
                  "arxiv.org" Rendered.sample_state Rendered.sample_entry 1
                  (Etree.mkElement "description" [] (Some "An abstract") [])
                  eq_refl eq_refl)
           ["Sr.,+V+R"; "Emeno,+L"]).
  constructor; [|constructor; [|constructor]].
  - exists "V+R". split; [|reflexivity].
    apply Expected.plus_for_space_other; [discriminate|].
    apply Expected.plus_for_space_space.
    apply Expected.plus_for_space_other; [discriminate|].
    apply Expected.plus_for_space_end.
  - exists "L". split; [|reflexivity].
    apply Expected.plus_for_space_other; [discriminate|].
    apply Expected.plus_for_space_end.
Defined.

Lemma extend_atom_appends_in_order_witness :
  Etree.children
    (@ArxivEntryExtension.extend_atom Domain.value_format_str
       Expected.full_state Expected.full_entry) =
  [ Etree.mkElement "title" [] (Some "A title") [];
    Etree.mkElement "author" [] None
      [ Etree.mkElement "name" [] (Some "Very Real Sr.") [];
        Etree.mkElement "email" [] (Some "real@example.org") [];
        Etree.mkElement "{http://arxiv.org/schemas/atom}affiliation" []
          (Some "Cornell University") [] ];
    Etree.mkElement "author" [] None
      [Etree.mkElement "name" [] (Some "L Emeno") []];
    Etree.mkElement "{http://arxiv.org/schemas/atom}comment" []
      (Some "12 pages") [];
    Etree.mkElement "{http://arxiv.org/schemas/atom}primary_category"
      [("term", "cs.AI")] None [];
    Etree.mkElement "{http://arxiv.org/schemas/atom}journal_ref" []
      (Some "J. Irrepr. Res. 1 (2023)") [];
    Etree.mkElement "{http://arxiv.org/schemas/atom}doi" []
      (Some "10.1000/182") [];
    Etree.mkElement "{http://search.yahoo.com/mrss}group" [] None
      [ Etree.mkElement "{http://search.yahoo.com/mrss}title" []
          (Some "Abstract") [];
        Etree.mkElement "{http://search.yahoo.com/mrss}content"
          [("url", "http://arxiv.org/abs/1234.5678"); ("type", "text/html")]
          None [] ] ].
Proof.
  destruct (@extend_atom_appends_in_order Domain.value_format_str
              Expected.full_state Expected.full_entry)
    as (_ & _ & _ & Hchildren & _).
  rewrite Hchildren. reflexivity.
Defined.

Lemma media_type_derived_witness :
  @Domain.type Domain.value_format_str
    (Domain.mkMedia "PDF" "http://arxiv.org/pdf/1234.5678" Domain.PDF) =
  "application/pdf".
Proof.
  apply (proj1 (@media_type_derived Domain.value_format_str
                  (Domain.mkMedia "PDF" "http://arxiv.org/pdf/1234.5678"
                     Domain.PDF))).
  left. reflexivity.
Defined.

(** ** The feed-level extension *)

(** C9: the feed-level [extend_atom] and [extend_rss] hand back the very tree
    they were given, so they add no element to it; what the feed-level
    extension contributes is the six namespace declarations arxiv, content,
    taxo, syn, admin and media. *)
Theorem feed_extension_identity (feed : Etree.Element) :
  ArxivExtension.extend_atom feed = feed
  ∧ ArxivExtension.extend_rss feed = feed
  ∧ Etree.children (ArxivExtension.extend_atom feed) = Etree.children feed
  ∧ Etree.children (ArxivExtension.extend_rss feed) = Etree.children feed
  ∧ ArxivExtension.extend_ns.*1 =
    ["arxiv"; "content"; "taxo"; "syn"; "admin"; "media"].
Proof.
  unfold ArxivExtension.extend_atom, ArxivExtension.extend_rss.
  repeat split; reflexivity.
Qed.

(** ** The setters *)

Section SetterFacts.
Import Domain Etree ArxivEntryExtension Rendered.

Lemma call_each_author (l : list Author) (st : State) :
  call_each author l st =
  mkState (arxiv_authors st ++ l) (arxiv_media st) (arxiv_comment st)
    (arxiv_primary_category st) (arxiv_doi st) (arxiv_affiliation st)
    (arxiv_journal_ref st) (arxiv_affiliations st).
Proof.
  unfold call_each. revert st.
  induction l as [|a l IH]; intros st; cbn [fold_left].
  - rewrite app_nil_r. by destruct st.
  - rewrite IH. cbn. by rewrite <- app_assoc.
Qed.

Lemma call_each_media (l : list Media) (st : State) :
  call_each media l st =
  mkState (arxiv_authors st) (arxiv_media st ++ l) (arxiv_comment st)
    (arxiv_primary_category st) (arxiv_doi st) (arxiv_affiliation st)
    (arxiv_journal_ref st) (arxiv_affiliations st).
Proof.
  unfold call_each. revert st.
  induction l as [|m l IH]; intros st; cbn [fold_left].
  - rewrite app_nil_r. by destruct st.
  - rewrite IH. cbn. by rewrite <- app_assoc.
Qed.

(** C10: the setters [comment], [primary_category], [journal_ref] and [doi]
    keep the last value written, and [affiliation] called twice with one full
    name keeps the second list; [author] and [media] called once per value
    accumulate the values in call order behind those already there; and every
    setter leaves every other member of the state as it was ([affiliation]
    also the lists under every other name). *)
Theorem setters_last_write_or_append (st : State) :
  (∀ a b, comment b (comment a st) = comment b st)
  ∧ (∀ a b, primary_category b (primary_category a st) = primary_category b st)
  ∧ (∀ a b, journal_ref b (journal_ref a st) = journal_ref b st)
  ∧ (∀ a b, doi b (doi a st) = doi b st)
  ∧ (∀ n l1 l2, affiliation n l2 (affiliation n l1 st) = affiliation n l2 st)
  ∧ (∀ a, arxiv_comment (comment a st) = Some a)
  ∧ (∀ a, arxiv_primary_category (primary_category a st) = Some a)
  ∧ (∀ a, arxiv_journal_ref (journal_ref a st) = Some a)
  ∧ (∀ a, arxiv_doi (doi a st) = Some a)
  ∧ (∀ n l, arxiv_affiliations (affiliation n l st) !! n = Some l)
  ∧ (∀ l, arxiv_authors (call_each author l st) = arxiv_authors st ++ l)
  ∧ (∀ l, arxiv_media (call_each media l st) = arxiv_media st ++ l)
  ∧ (∀ a, same_except Comment st (comment a st))
  ∧ (∀ a, same_except PrimaryCategory st (primary_category a st))
  ∧ (∀ a, same_except JournalRef st (journal_ref a st))
  ∧ (∀ a, same_except Doi st (doi a st))
  ∧ (∀ n l, same_except Affiliations st (affiliation n l st))
  ∧ (∀ n l k, k ≠ n →
       arxiv_affiliations (affiliation n l st) !! k =
       arxiv_affiliations st !! k)
  ∧ (∀ l, same_except Authors st (call_each author l st))
  ∧ (∀ l, same_except MediaItems st (call_each media l st)).
Proof.
  repeat match goal with |- _ ∧ _ => split end;
    try (intros; reflexivity);
    try (intros; unfold same_except; repeat split; intros; done).
  - intros n l1 l2. unfold affiliation. cbn. f_equal.
    apply insert_insert_eq.
  - intros n l. cbn. apply lookup_insert_eq.
  - intros l. by rewrite call_each_author.
  - intros l. by rewrite call_each_media.
  - intros n l k Hk. cbn. by apply lookup_insert_ne.
  - intros l. rewrite call_each_author.
    unfold same_except; repeat split; intros; done.
  - intros l. rewrite call_each_media.
    unfold same_except; repeat split; intros; done.
Qed.

End SetterFacts.

(** ** The announce query *)

Section QueryFacts.
Import Database.

Lemma in_spec (x : string) (values : list string) :
  in_ x values = true ↔ x ∈ values.
Proof.
  unfold in_. rewrite existsb_exists. split.
  - intros (y & Hy & Heq). apply String.eqb_eq in Heq. subst y.
    by apply list_elem_of_In.
  - intros Hx. exists x. split; [by apply list_elem_of_In|].
    apply String.eqb_refl.
Qed.

(** Every joined row pairs an update with a metadata row of the same
    document, both taken from the tables. *)
Lemma join_spec (db : Tables) (u : ArXivUpdate.t) (m : ArXivMetadata.t) :
  (u, m) ∈ join db ↔
  u ∈ updates db ∧ m ∈ metadata db ∧
  ArXivUpdate.document_id u = ArXivMetadata.document_id m.
Proof.
  unfold join. rewrite list_elem_of_bind. split.
  - intros (u' & Hin & Hu). apply list_elem_of_bind in Hin.
    destruct Hin as (m' & Hin & Hm).
    destruct (Z.eqb_spec (ArXivUpdate.document_id u')
                (ArXivMetadata.document_id m')) as [Heq|Hne].
    + apply list_elem_of_singleton in Hin. by simplify_eq.
    + by apply elem_of_nil in Hin.
  - intros (Hu & Hm & Heq). exists u. split; [|done].
    apply list_elem_of_bind. exists m. split; [|done].
    rewrite (proj2 (Z.eqb_eq _ _) Heq). by apply list_elem_of_singleton.
Qed.

Lemma filter_clause_spec (threshold first_day last_day : Z)
  (archives categories : list string) (u : ArXivUpdate.t)
  (m : ArXivMetadata.t) :
  filter_clause threshold first_day last_day archives categories (u, m) = true
  ↔ (ArXivUpdate.category u ∈ categories ∨ ArXivUpdate.archive u ∈ archives)
    ∧ (ArXivUpdate.action u = "replace" → ArXivUpdate.version u ≤ threshold)
    ∧ ArXivUpdate.action u ≠ "abs_only"
    ∧ first_day ≤ ArXivUpdate.date u ≤ last_day
    ∧ ArXivMetadata.is_current m = 1.
Proof.
  unfold filter_clause.
  rewrite !andb_true_iff, !orb_true_iff, !andb_true_iff, !negb_true_iff.
  rewrite !in_spec, !Z.leb_le, Z.eqb_eq, !String.eqb_neq, String.eqb_eq.
  split.
  - intros (Hsel & (((Hrep & Habs) & Hlo) & Hhi) & Hcur).
    repeat split; try done. intros Hact. destruct Hrep as [Hne|[_ Hv]]; done.
  - intros (Hsel & Hrep & Habs & [Hlo Hhi] & Hcur).
    repeat split; try done.
    destruct (decide (ArXivUpdate.action u = "replace")); auto.
Qed.

Variable engine_order : list Row → list Row.
Hypothesis engine_order_perm : ∀ rows, engine_order rows ≡ₚ rows.

(** C1: every (update, metadata) pair that [get_announce_papers] returns has
    the update's category among [categories] or its archive among
    [archives]; an action other than ["abs_only"]; a version of at most 4
    when the action is ["replace"]; a date within [first_day, last_day], both
    ends included; and for metadata a row of the metadata table that belongs
    to the update's document and is flagged current. *)
Theorem get_announce_papers_rows_match (db : Tables) (first_day last_day : Z)
  (archives categories : list string) (u : ArXivUpdate.t)
  (m : ArXivMetadata.t) :
  (u, m) ∈ get_announce_papers engine_order db first_day last_day
             archives categories →
  (ArXivUpdate.category u ∈ categories ∨ ArXivUpdate.archive u ∈ archives)
  ∧ ArXivUpdate.action u ≠ "abs_only"
  ∧ (ArXivUpdate.action u = "replace" → ArXivUpdate.version u ≤ 4)
  ∧ first_day ≤ ArXivUpdate.date u ≤ last_day
  ∧ u ∈ updates db
  ∧ m ∈ metadata db
  ∧ ArXivMetadata.document_id m = ArXivUpdate.document_id u
  ∧ ArXivMetadata.is_current m = 1.
Proof.
  unfold get_announce_papers. intros Hin.
  apply subseteq_take in Hin. rewrite engine_order_perm in Hin.
  apply list_elem_of_In, filter_In in Hin. destruct Hin as [Hjoin Hclause].
  apply list_elem_of_In, join_spec in Hjoin.
  apply filter_clause_spec in Hclause.
  destruct Hjoin as (Hu & Hm & Hid).
  destruct Hclause as (Hsel & Hrep & Habs & Hdate & Hcur).
  repeat split; try done. apply Hdate. apply Hdate.
Qed.

(** C7: [get_announce_papers] returns at most 15 row pairs, however many rows
    match the filter and in whatever order the engine yields them. *)
Theorem get_announce_papers_capped (db : Tables) (first_day last_day : Z)
  (archives categories : list string) :
  (length (get_announce_papers engine_order db first_day last_day
             archives categories) ≤ 15)%nat.
Proof.
  unfold get_announce_papers. rewrite length_take. lia.
Qed.

End QueryFacts.

Lemma get_announce_papers_rows_match_witness :
  let u := Database.ArXivUpdate.mk 1 "cs.CV" "cs" "new" 1 738819 in
  let m := Database.ArXivMetadata.mk 1 1 in
  (Database.ArXivUpdate.category u ∈ ["cs.CV"]
   ∨ Database.ArXivUpdate.archive u ∈ ["math"])
  ∧ Database.ArXivUpdate.action u ≠ "abs_only"
  ∧ (Database.ArXivUpdate.action u = "replace" →
     Database.ArXivUpdate.version u ≤ 4)
  ∧ 738819 ≤ Database.ArXivUpdate.date u ≤ 738820
  ∧ u ∈ Database.updates Database.sample_tables
  ∧ m ∈ Database.metadata Database.sample_tables
  ∧ Database.ArXivMetadata.document_id m = Database.ArXivUpdate.document_id u
  ∧ Database.ArXivMetadata.is_current m = 1.
Proof.
  apply (get_announce_papers_rows_match Database.table_order
           (fun rows => Permutation_refl rows)
           Database.sample_tables 738819 738820 ["math"] ["cs.CV"]).
  vm_compute. constructor.
Defined.

(** ** The specifier validator *)

Section SpecifierFacts.
Import PyStr FetchData Specifier.

Lemma split_nonempty (sep : ascii) (s : string) : split sep s ≠ [].
Proof.
  destruct s as [|c s]; cbn; [done|].
  destruct (Ascii.eqb c sep); [done|]. by destruct (split sep s).
Qed.

(** Joining the pieces with the separator gives the string back. *)
Lemma join_split (sep : ascii) (s : string) :
  join (String sep EmptyString) (split sep s) = s.
Proof.
  induction s as [|c s IH]; [reflexivity|].
  cbn [split]. destruct (Ascii.eqb_spec c sep) as [->|Hne].
  - pose proof (split_nonempty sep s) as Hs.
    destruct (split sep s) as [|p ps]; [done|].
    change (join (String sep EmptyString) (EmptyString :: p :: ps))
      with (EmptyString +:+ String sep EmptyString +:+
            join (String sep EmptyString) (p :: ps)).
    by rewrite IH.
  - pose proof (split_nonempty sep s) as Hs.
    destruct (split sep s) as [|p ps]; [done|].
    rewrite join_cons in *. rewrite sapp_cons. by rewrite IH.
Qed.


Lemma find_archive_Some (taxonomy : Taxonomy) (archive canonical : string)
  (subjects : list string) :
  find_archive taxonomy archive = Some (canonical, subjects) →
  (canonical, subjects) ∈ taxonomy ∧ lower canonical = lower archive.
Proof.
  unfold find_archive. intros Hfind. apply find_some in Hfind.
  destruct Hfind as [Hin Heq]. apply String.eqb_eq in Heq.
  split; [by apply list_elem_of_In|done].
Qed.

Lemma find_subject_Some (subjects : list string) (subject code : string) :
  find_subject subjects subject = Some code →
  code ∈ subjects ∧ lower code = lower subject.
Proof.
  unfold find_subject. intros Hfind. apply find_some in Hfind.
  destruct Hfind as [Hin Heq]. apply String.eqb_eq in Heq.
  split; [by apply list_elem_of_In|done].
Qed.

(** A token that passes rules 2 to 5 denotes what it contributes. *)
Lemma validate_token_denotes (taxonomy : Taxonomy) (token : string)
  (c : Contribution) :
  validate_token taxonomy token = Ok c → denotes taxonomy token c.
Proof.
  unfold validate_token. pose proof (join_split "." token) as Hjoin.
  destruct (split "." token) as [|archive [|subject [|extra rest]]];
    [done| | |done].
  - cbn in Hjoin. subst archive.
    destruct (find_archive taxonomy token) as [[canonical subjects]|] eqn:Hf;
      [|done].
    intros [= <-]. apply find_archive_Some in Hf as [Hin Hlow].
    split; [by exists subjects|done].
  - change (join "." [archive; subject])
      with (archive +:+ "." +:+ subject) in Hjoin.
    destruct (String.eqb archive EmptyString);
      [by destruct (String.eqb subject EmptyString)|].
    destruct (String.eqb subject EmptyString); [done|].
    destruct (find_archive taxonomy archive) as [[canonical subjects]|] eqn:Hf;
      [|done].
    destruct (negb (known_subject taxonomy subject)); [done|].
    destruct (find_subject subjects subject) as [code|] eqn:Hs; [|done].
    intros [= <-]. apply find_archive_Some in Hf as [Hin Hlow].
    apply find_subject_Some in Hs as [Hcode Hlowc].
    by exists canonical, subjects, code, archive, subject.
Qed.

Lemma validate_tokens_denote (taxonomy : Taxonomy) (tokens : list string)
  (archives categories archives' categories' : list string) :
  validate_tokens taxonomy tokens archives categories =
    Ok (archives', categories') →
  ∃ cs : list Contribution,
    Forall2 (denotes taxonomy) tokens cs ∧
    archives' = archives ++ omap archive_of cs ∧
    categories' = categories ++ omap category_of cs.
Proof.
  revert archives categories.
  induction tokens as [|token tokens IH]; intros archives categories.
  - intros [= <- <-]. exists []. by rewrite !app_nil_r.
  - cbn [validate_tokens].
    destruct (bool_decide (tokens = []) && String.eqb token EmptyString);
      [done|].
    destruct (validate_token taxonomy token) as [[a|cat]|e] eqn:Htok;
      [| |done]; intros Hrest; apply IH in Hrest as (cs & Hcs & -> & ->);
      apply validate_token_denotes in Htok.
    + exists (ToArchives a :: cs). split; [by constructor|].
      cbn. by rewrite <- app_assoc.
    + exists (ToCategories cat :: cs). split; [by constructor|].
      cbn. by rewrite <- app_assoc.
Qed.





End SpecifierFacts.


(** *** Letter case *)

Section CaseFacts.
Import PyStr FetchData Specifier.

(** No character lower-cases to a separator other than the separator
    itself. *)
Lemma lower_char_plus (c : ascii) :
  Ascii.eqb (lower_char c) "+" = Ascii.eqb c "+".
Proof. destruct c as [[] [] [] [] [] [] [] []]; reflexivity. Qed.

Lemma lower_char_dot (c : ascii) :
  Ascii.eqb (lower_char c) "." = Ascii.eqb c ".".
Proof. destruct c as [[] [] [] [] [] [] [] []]; reflexivity. Qed.

Lemma is_space_lower_char (c : ascii) : is_space (lower_char c) = is_space c.
Proof. destruct c as [[] [] [] [] [] [] [] []]; reflexivity. Qed.

Lemma is_blank_lower (s : string) : is_blank (lower s) = is_blank s.
Proof.
  induction s as [|c s IH]; [reflexivity|].
  cbn [lower is_blank]. by rewrite is_space_lower_char, IH.
Qed.

(** Splitting commutes with lower-casing for such a separator. *)
Lemma split_lower (sep : ascii) (s : string) :
  (∀ c, Ascii.eqb (lower_char c) sep = Ascii.eqb c sep) →
  split sep (lower s) = lower <$> split sep s.
Proof.
  intros Hsep. induction s as [|c s IH]; [reflexivity|].
  cbn [lower split]. rewrite Hsep, IH.
  destruct (Ascii.eqb c sep); [reflexivity|].
  by destruct (split sep s).
Qed.

Lemma eqb_empty_lower (s s' : string) :
  lower s = lower s' → String.eqb s EmptyString = String.eqb s' EmptyString.
Proof. by destruct s, s'. Qed.

Lemma empty_eqb_lower (s s' : string) :
  lower s = lower s' → String.eqb EmptyString s = String.eqb EmptyString s'.
Proof. by destruct s, s'. Qed.

Lemma known_subject_lower (taxonomy : Taxonomy) (s s' : string) :
  lower s = lower s' → known_subject taxonomy s = known_subject taxonomy s'.
Proof. unfold known_subject, find_subject. by intros ->. Qed.

Lemma validate_token_lower (taxonomy : Taxonomy) (t t' : string)
  (c : Contribution) :
  lower t = lower t' →
  validate_token taxonomy t = Ok c → validate_token taxonomy t' = Ok c.
Proof.
  intros Hlow.
  assert (lower <$> split "." t = lower <$> split "." t') as Hs.
  { rewrite <- !split_lower by apply lower_char_dot. by rewrite Hlow. }
  unfold validate_token.
  destruct (split "." t) as [|a [|s [|x xs]]];
    destruct (split "." t') as [|a' [|s' [|x' xs']]];
    try discriminate Hs; try done.
  - cbn in Hs. injection Hs as Ha. unfold find_archive. rewrite Ha.
    by destruct (find _ taxonomy) as [[canonical subjects]|].
  - cbn in Hs. injection Hs as Ha Hsub.
    rewrite (eqb_empty_lower a a' Ha), (eqb_empty_lower s s' Hsub).
    rewrite (known_subject_lower taxonomy s s' Hsub).
    unfold find_archive, find_subject. rewrite Ha, Hsub.
    destruct (String.eqb a' EmptyString); [by destruct (String.eqb s' _)|].
    destruct (String.eqb s' EmptyString); [done|].
    destruct (find _ taxonomy) as [[canonical subjects]|]; [|done].
    destruct (negb _); [done|].
    by destruct (find _ subjects).
Qed.

Lemma validate_tokens_lower (taxonomy : Taxonomy) (tokens tokens' : list string)
  (archives categories : list string) (r : list string * list string) :
  lower <$> tokens = lower <$> tokens' →
  validate_tokens taxonomy tokens archives categories = Ok r →
  validate_tokens taxonomy tokens' archives categories = Ok r.
Proof.
  revert tokens' archives categories.
  induction tokens as [|t tokens IH]; intros [|t' tokens'] archives categories;
    try discriminate; [done|].
  intros [= Ht Htokens]. cbn [validate_tokens].
  rewrite (eqb_empty_lower t t' Ht).
  assert (bool_decide (tokens = []) = bool_decide (tokens' = [])) as ->
    by (by destruct tokens, tokens').
  destruct (bool_decide (tokens' = []) && String.eqb t' EmptyString);
    [done|].
  destruct (validate_token taxonomy t) as [c|e] eqn:Hc; [|done].
  rewrite (validate_token_lower taxonomy t t' c Ht Hc).
  destruct c; by apply IH.
Qed.

(** C4: a specifier that [validate] accepts yields its archives and its
    categories as the contributions of its tokens, token by token in input
    order, nothing dropped, merged or reordered: a token that names an
    archive (in any letter case) contributes the taxonomy's spelling of the
    archive to the archives, a token [archive.subject] contributes the
    taxonomy's spelling of the full dotted category to the categories.  The
    outcome does not depend on the letter case of the specifier.  On the
    sample taxonomy, ["cs.CV+math+hep-lat+cs.CG"] yields
    [(["math"; "hep-lat"], ["cs.CV"; "cs.CG"])], and ["cs.ai"] and ["CS.AI"]
    both yield [([], ["cs.AI"])]. *)
Theorem validate_partitions_tokens :
  (∀ (taxonomy : Taxonomy) (spec : string) (archives categories : list string),
     validate taxonomy spec = Ok (archives, categories) →
     ∃ cs : list Contribution,
       Forall2 (denotes taxonomy) (split "+" spec) cs ∧
       archives = omap archive_of cs ∧
       categories = omap category_of cs)
  ∧ (∀ (taxonomy : Taxonomy) (spec spec' : string)
       (r : list string * list string),
       lower spec = lower spec' →
       validate taxonomy spec = Ok r → validate taxonomy spec' = Ok r)
  ∧ validate sample_taxonomy "cs.CV+math+hep-lat+cs.CG" =
      Ok (["math"; "hep-lat"], ["cs.CV"; "cs.CG"])
  ∧ validate sample_taxonomy "cs.ai" = Ok ([], ["cs.AI"])
  ∧ validate sample_taxonomy "CS.AI" = Ok ([], ["cs.AI"])
  ∧ validate sample_taxonomy "cs.AI+math+cs.AI+math" =
      Ok (["math"; "math"], ["cs.AI"; "cs.AI"]).
Proof.
  split; [|split]; [| |by vm_compute].
  - intros taxonomy spec archives categories. unfold validate.
    destruct (is_blank spec); [done|].
    intros Hv. by apply validate_tokens_denote in Hv.
  - intros taxonomy spec spec' r Hlow. unfold validate.
    assert (lower <$> split "+" spec = lower <$> split "+" spec') as Hs.
    { rewrite <- !split_lower by apply lower_char_plus. by rewrite Hlow. }
    rewrite <- (is_blank_lower spec), <- (is_blank_lower spec'), Hlow.
    destruct (is_blank (lower spec')); [done|].
    by apply validate_tokens_lower.
Qed.

End CaseFacts.

Lemma validate_partitions_tokens_witness :
  ∃ cs : list FetchData.Contribution,
    Forall2 (Specifier.denotes FetchData.sample_taxonomy)
      (PyStr.split "+" "cs.CV+math+hep-lat+cs.CG") cs ∧
    ["math"; "hep-lat"] = omap Specifier.archive_of cs ∧
    ["cs.CV"; "cs.CG"] = omap Specifier.category_of cs.
Proof.
  apply (proj1 validate_partitions_tokens FetchData.sample_taxonomy
           "cs.CV+math+hep-lat+cs.CG" ["math"; "hep-lat"] ["cs.CV"; "cs.CG"]).
  reflexivity.
Defined.

(** * Further properties *)

(** ** The announce query: what is returned, and how much *)

Section QueryFurther.
Import Database Further.

Variable engine_order : list Row → list Row.
Hypothesis engine_order_perm : ∀ rows, engine_order rows ≡ₚ rows.

(** The pairs that pass the filter, in terms of the columns. *)
Lemma matching_rows_spec (db : Tables) (first_day last_day : Z)
  (archives categories : list string) (u : ArXivUpdate.t)
  (m : ArXivMetadata.t) :
  (u, m) ∈ matching_rows db first_day last_day archives categories ↔
  u ∈ updates db ∧ m ∈ metadata db
  ∧ ArXivUpdate.document_id u = ArXivMetadata.document_id m
  ∧ (ArXivUpdate.category u ∈ categories ∨ ArXivUpdate.archive u ∈ archives)
  ∧ (ArXivUpdate.action u = "replace" → ArXivUpdate.version u ≤ 4)
  ∧ ArXivUpdate.action u ≠ "abs_only"
  ∧ first_day ≤ ArXivUpdate.date u ≤ last_day
  ∧ ArXivMetadata.is_current m = 1.
Proof.
  unfold matching_rows. split.
  - intros Hin. apply list_elem_of_In, filter_In in Hin as [Hjoin Hclause].
    apply list_elem_of_In, join_spec in Hjoin.
    apply filter_clause_spec in Hclause. tauto.
  - intros (Hu & Hm & Hid & Hclause).
    apply list_elem_of_In, filter_In. split.
    + apply list_elem_of_In, join_spec. tauto.
    + by apply filter_clause_spec.
Qed.

Lemma get_announce_papers_unfold (db : Tables) (first_day last_day : Z)
  (archives categories : list string) :
  get_announce_papers engine_order db first_day last_day archives categories =
  take 15 (engine_order
             (matching_rows db first_day last_day archives categories)).
Proof. reflexivity. Qed.

(** Whatever is returned passes the filter. *)
Lemma get_announce_papers_sound (db : Tables) (first_day last_day : Z)
  (archives categories : list string) (row : Row) :
  row ∈ get_announce_papers engine_order db first_day last_day
          archives categories →
  row ∈ matching_rows db first_day last_day archives categories.
Proof.
  rewrite get_announce_papers_unfold. intros Hin.
  apply subseteq_take in Hin. by rewrite engine_order_perm in Hin.
Qed.

(** With at most 15 matching rows, whatever passes the filter is returned. *)
Lemma get_announce_papers_all (db : Tables) (first_day last_day : Z)
  (archives categories : list string) (row : Row) :
  (length (matching_rows db first_day last_day archives categories) ≤ 15)%nat →
  row ∈ matching_rows db first_day last_day archives categories →
  row ∈ get_announce_papers engine_order db first_day last_day
          archives categories.
Proof.
  intros Hlen Hin. rewrite get_announce_papers_unfold, take_ge.
  - by rewrite engine_order_perm.
  - by rewrite (Permutation_length (engine_order_perm _)).
Qed.

(** X1: when at most 15 joined rows pass the filter, the query misses none
    of them: every update of the table that is selected by category or
    archive, is not ["abs_only"], is no ["replace"] beyond version 4 and is
    dated within the range comes back, paired with every current metadata row
    of its document. *)
Theorem get_announce_papers_complete_under_cap (db : Tables)
  (first_day last_day : Z) (archives categories : list string)
  (u : ArXivUpdate.t) (m : ArXivMetadata.t) :
  (length (matching_rows db first_day last_day archives categories) ≤ 15)%nat →
  u ∈ updates db →
  m ∈ metadata db →
  ArXivMetadata.document_id m = ArXivUpdate.document_id u →
  ArXivMetadata.is_current m = 1 →
  ArXivUpdate.category u ∈ categories ∨ ArXivUpdate.archive u ∈ archives →
  ArXivUpdate.action u ≠ "abs_only" →
  (ArXivUpdate.action u = "replace" → ArXivUpdate.version u ≤ 4) →
  first_day ≤ ArXivUpdate.date u ≤ last_day →
  (u, m) ∈ get_announce_papers engine_order db first_day last_day
             archives categories.
Proof.
  intros Hlen Hu Hm Hid Hcur Hsel Habs Hrep Hdate.
  apply get_announce_papers_all; [done|].
  apply matching_rows_spec. destruct Hdate as [Hlo Hhi].
  repeat split; done.
Qed.

(** X2: the number of pairs returned is the number of joined rows that pass
    the filter, cut off at 15. *)
Theorem get_announce_papers_length (db : Tables) (first_day last_day : Z)
  (archives categories : list string) :
  length (get_announce_papers engine_order db first_day last_day
            archives categories) =
  (length (matching_rows db first_day last_day archives categories)
     `min` 15)%nat.
Proof.
  rewrite get_announce_papers_unfold, length_take.
  rewrite (Permutation_length (engine_order_perm _)). lia.
Qed.

(** X3: a query that selects nothing returns nothing: with neither an
    archive nor a category given, or with a last day before the first day,
    the result is empty whatever the tables hold. *)
Theorem get_announce_papers_empty (db : Tables) (first_day last_day : Z)
  (archives categories : list string) :
  (archives = [] ∧ categories = []) ∨ last_day < first_day →
  get_announce_papers engine_order db first_day last_day archives categories
  = [].
Proof.
  intros Hnone. apply elem_of_nil_inv. intros [u m] Hin.
  apply get_announce_papers_sound, matching_rows_spec in Hin.
  destruct Hin as (_ & _ & _ & Hsel & _ & _ & Hdate & _).
  destruct Hnone as [[-> ->]|Hlt]; [|lia].
  destruct Hsel as [Hsel|Hsel]; by apply elem_of_nil in Hsel.
Qed.

(** X4: widening a query keeps its rows: a pair returned for a date range
    and lists of archives and categories is returned for every wider range
    and longer lists, provided the wider query stays within the cap of 15
    matching rows. *)
Theorem get_announce_papers_widen (db : Tables)
  (first_day last_day first_day' last_day' : Z)
  (archives categories archives' categories' : list string) (row : Row) :
  first_day' ≤ first_day →
  last_day ≤ last_day' →
  archives ⊆ archives' →
  categories ⊆ categories' →
  (length (matching_rows db first_day' last_day' archives' categories')
   ≤ 15)%nat →
  row ∈ get_announce_papers engine_order db first_day last_day
          archives categories →
  row ∈ get_announce_papers engine_order db first_day' last_day'
          archives' categories'.
Proof.
  intros Hfirst Hlast Harch Hcat Hlen Hin.
  apply get_announce_papers_all; [done|].
  apply get_announce_papers_sound in Hin. destruct row as [u m].
  apply matching_rows_spec in Hin. apply matching_rows_spec.
  destruct Hin as (Hu & Hm & Hid & Hsel & Hrep & Habs & Hdate & Hcur).
  repeat split; try done; try lia.
  destruct Hsel as [Hsel|Hsel]; [left; by apply Hcat|right; by apply Harch].
Qed.

End QueryFurther.

Lemma get_announce_papers_complete_under_cap_witness :
  (Database.ArXivUpdate.mk 4 "cs.CV" "cs" "cross" 1 738820,
   Database.ArXivMetadata.mk 4 1)
  ∈ Database.get_announce_papers Database.table_order Database.sample_tables
      738819 738820 ["math"] ["cs.CV"].
Proof.
  apply (get_announce_papers_complete_under_cap Database.table_order
           (fun rows => Permutation_refl rows) Database.sample_tables
           738819 738820 ["math"] ["cs.CV"]).
  - vm_compute. lia.
  - apply list_elem_of_In. cbn. tauto.
  - apply list_elem_of_In. cbn. tauto.
  - reflexivity.
  - reflexivity.
  - left. constructor.
  - discriminate.
  - discriminate.
  - cbn. lia.
Defined.

Lemma get_announce_papers_length_witness :
  length (Database.get_announce_papers Database.table_order
            Database.sample_tables 738819 738820 ["math"] ["cs.CV"]) =
  (length (Further.matching_rows Database.sample_tables 738819 738820
             ["math"] ["cs.CV"]) `min` 15)%nat.
Proof.
  apply (get_announce_papers_length Database.table_order
           (fun rows => Permutation_refl rows)).
Defined.

Lemma get_announce_papers_empty_witness :
  Database.get_announce_papers Database.table_order Database.sample_tables
    738820 738819 ["cs"] ["cs.CV"] = [].
Proof.
  apply (get_announce_papers_empty Database.table_order
           (fun rows => Permutation_refl rows)).
  right. lia.
Defined.

Lemma get_announce_papers_widen_witness :
  (Database.ArXivUpdate.mk 1 "cs.CV" "cs" "new" 1 738819,
   Database.ArXivMetadata.mk 1 1)
  ∈ Database.get_announce_papers Database.table_order Database.sample_tables
      738819 738820 ["math"] ["cs.CV"].
Proof.
  apply (get_announce_papers_widen Database.table_order
           (fun rows => Permutation_refl rows) Database.sample_tables
           738819 738819 738819 738820 [] ["cs.CV"] ["math"] ["cs.CV"]).
  - lia.
  - lia.
  - intros x Hx. by apply elem_of_nil in Hx.
  - intros x Hx. exact Hx.
  - vm_compute. lia.
  - vm_compute. constructor.
Defined.

(** ** The renderers: what they leave alone *)

Section RenderFurther.
Context `{Domain.FormatStr}.
Import PyStr Domain Etree ArxivEntryExtension Rendered Further.

Lemma extend_rss_closed_form (base_server : string) (st : State)
  (entry : Element) :
  extend_rss base_server st entry =
  set_children
    ((rss_child_step base_server st <$> children entry) ++ media_groups st)
    entry.
Proof. unfold extend_rss. by rewrite add_media_children. Qed.

Lemma length_optional_text_element (tg : string) (field : option string) :
  length (optional_text_element tg field) =
  if truthy_str field then 1%nat else 0%nat.
Proof.
  destruct field as [[|c s]|]; cbn; [by rewrite decide_True| |done].
  by rewrite decide_False.
Qed.

(** X5: both renderers leave the entry's own tag, attributes and text as
    they were and only add children.  [extend_rss] adds one child per media
    item; [extend_atom] adds one for a non-empty comment, one for a non-empty
    primary category, one for a non-empty journal reference, one per entry of
    the DOI mapping and one per media item. *)
Theorem renderers_only_add_children (base_server : string) (st : State)
  (entry : Element) :
  tag (extend_atom st entry) = tag entry
  ∧ attrib (extend_atom st entry) = attrib entry
  ∧ text (extend_atom st entry) = text entry
  ∧ tag (extend_rss base_server st entry) = tag entry
  ∧ attrib (extend_rss base_server st entry) = attrib entry
  ∧ text (extend_rss base_server st entry) = text entry
  ∧ length (children (extend_rss base_server st entry)) =
      (length (children entry) + length (arxiv_media st))%nat
  ∧ length (children (extend_atom st entry)) =
      (length (children entry)
       + (if truthy_str (arxiv_comment st) then 1 else 0)
       + (if truthy_dict (arxiv_primary_category st) then 1 else 0)
       + (if truthy_str (arxiv_journal_ref st) then 1 else 0)
       + length (default [] (arxiv_doi st))
       + length (arxiv_media st))%nat.
Proof.
  rewrite extend_atom_closed_form, extend_rss_closed_form.
  repeat split.
  - rewrite children_set_children, length_app, length_fmap.
    unfold media_groups. by rewrite length_fmap.
  - rewrite children_set_children, !length_app, length_fmap.
    unfold comment_elements, journal_ref_elements.
    rewrite !length_optional_text_element.
    unfold media_groups, doi_elements, primary_category_elements.
    rewrite length_fmap.
    destruct (arxiv_primary_category st) as [[|p ps]|];
      destruct (arxiv_doi st) as [ds|]; cbn; rewrite ?length_fmap; lia.
Qed.

(** X6: [extend_rss] keeps every existing child at its position with its
    tag, attributes and children; a child that is no description element is
    kept as it is, text included. *)
Theorem extend_rss_keeps_children (base_server : string) (st : State)
  (entry : Element) (i : nat) (c : Element) :
  children entry !! i = Some c →
  ∃ c' : Element,
    children (extend_rss base_server st entry) !! i = Some c'
    ∧ tag c' = tag c ∧ attrib c' = attrib c ∧ children c' = children c
    ∧ (tag c ≠ "description" → c' = c).
Proof.
  intros Hc. rewrite extend_rss_closed_form, children_set_children.
  exists (rss_child_step base_server st c). split.
  - rewrite lookup_app_l by (rewrite length_fmap; by eapply lookup_lt_Some).
    by rewrite list_lookup_fmap, Hc.
  - rewrite rss_child_step_text. by case_decide.
Qed.

(** X7: [extend_atom] keeps every existing child at its position with its
    tag, attributes and text, and with its children as the first children; a
    child that is no author element is kept as it is. *)
Theorem extend_atom_keeps_children (st : State) (entry : Element) (i : nat)
  (c : Element) :
  children entry !! i = Some c →
  ∃ c' : Element,
    children (extend_atom st entry) !! i = Some c'
    ∧ tag c' = tag c ∧ attrib c' = attrib c ∧ text c' = text c
    ∧ children c `prefix_of` children c'
    ∧ (tag c ≠ "author" → c' = c).
Proof.
  intros Hc. rewrite extend_atom_closed_form, children_set_children.
  exists (with_affiliations st c). split.
  - rewrite lookup_app_l by (rewrite length_fmap; by eapply lookup_lt_Some).
    by rewrite list_lookup_fmap, Hc.
  - unfold with_affiliations. case_decide; [|done].
    repeat split; try done. by eexists.
Qed.

(** X8: what a renderer does not read does not change its output: the
    accumulated authors play no part in [extend_atom], and the comment, the
    primary category, the journal reference, the DOI mapping and the
    affiliations play no part in [extend_rss]. *)
Theorem renderers_ignore_other_members (base_server : string) (st : State)
  (entry : Element) :
  (∀ a, extend_atom (author a st) entry = extend_atom st entry)
  ∧ (∀ t, extend_rss base_server (comment t st) entry =
          extend_rss base_server st entry)
  ∧ (∀ t, extend_rss base_server (primary_category t st) entry =
          extend_rss base_server st entry)
  ∧ (∀ t, extend_rss base_server (journal_ref t st) entry =
          extend_rss base_server st entry)
  ∧ (∀ d, extend_rss base_server (doi d st) entry =
          extend_rss base_server st entry)
  ∧ (∀ n l, extend_rss base_server (affiliation n l st) entry =
            extend_rss base_server st entry).
Proof. repeat split; intros; reflexivity. Qed.

Lemma filter_no_names (cs : list Element) :
  Forall (fun c => tag c ≠ "name") cs →
  List.filter (fun c => bool_decide (tag c = "name")) cs = [].
Proof.
  induction 1 as [|c cs Hc _ IH]; [done|].
  cbn. by rewrite bool_decide_eq_false_2.
Qed.

(** X9: an affiliation list recorded under a full name comes out under the
    author of that name: when an author child of the entry has a single name
    child and its text is the name given to [affiliation], [extend_atom]
    gives that author, behind its existing children, one affiliation element
    per string of the list, in list order. *)
Theorem affiliation_round_trip (st : State) (name : string)
  (affiliations : list string) (entry : Element) (i : nat)
  (a name_child : Element) (before after : list Element) :
  children entry !! i = Some a →
  tag a = "author" →
  children a = before ++ name_child :: after →
  tag name_child = "name" →
  text name_child = Some name →
  Forall (fun c => tag c ≠ "name") (before ++ after) →
  children (extend_atom (affiliation name affiliations st) entry) !! i =
  Some (set_children
          (children a ++
           ((fun x => mkElement "{http://arxiv.org/schemas/atom}affiliation"
                        [] (Some x) []) <$> affiliations)) a).
Proof.
  intros Ha Htag Hch Hname Htext Hothers.
  apply Forall_app in Hothers as [Hbefore Hafter].
  rewrite extend_atom_closed_form, children_set_children.
  rewrite lookup_app_l by (rewrite length_fmap; by eapply lookup_lt_Some).
  rewrite list_lookup_fmap, Ha. cbn [fmap option_fmap option_map].
  unfold with_affiliations. rewrite decide_True by done.
  unfold affiliation_elements. rewrite Hch, List.filter_app. cbn [List.filter].
  rewrite (filter_no_names before Hbefore), (filter_no_names after Hafter).
  rewrite bool_decide_eq_true_2 by done. cbn [app mbind list_bind].
  rewrite Htext, app_nil_r. cbn [listed_affiliations affiliation
                                   arxiv_affiliations].
  by rewrite lookup_insert_eq.
Qed.

(** X10: a name that is no key of the affiliations adds nothing: a child of
    the entry none of whose name children carries a recorded name, be it an
    author or not, comes out of [extend_atom] as it went in. *)
Theorem unlisted_author_unchanged (st : State) (entry : Element) (i : nat)
  (a : Element) :
  children entry !! i = Some a →
  (∀ c name, c ∈ children a → tag c = "name" → text c = Some name →
             arxiv_affiliations st !! name = None) →
  children (extend_atom st entry) !! i = Some a.
Proof.
  intros Ha Hnone.
  rewrite extend_atom_closed_form, children_set_children.
  rewrite lookup_app_l by (rewrite length_fmap; by eapply lookup_lt_Some).
  rewrite list_lookup_fmap, Ha. cbn [fmap option_fmap option_map]. f_equal.
  unfold with_affiliations. case_decide; [|done].
  assert (affiliation_elements st a = []) as ->;
    [|by rewrite app_nil_r, set_children_same].
  unfold affiliation_elements.
  assert (∀ c, c ∈ List.filter (fun c => bool_decide (tag c = "name"))
                     (children a) →
               listed_affiliations st (text c) = []) as Hall.
  { intros c Hc. apply list_elem_of_In, filter_In in Hc as [Hc Hn].
    apply list_elem_of_In in Hc. apply bool_decide_eq_true_1 in Hn.
    unfold listed_affiliations. destruct (text c) as [n|] eqn:Ht; [|done].
    by rewrite (Hnone c n Hc Hn Ht). }
  induction (List.filter _ (children a)) as [|c cs IH]; [done|].
  cbn. rewrite (Hall c) by constructor. cbn. apply IH.
  intros c' Hc'. apply Hall. by constructor.
Qed.

(** X11: an empty value renders like a missing one: after [comment] or
    [journal_ref] with the empty string, or [doi] or [primary_category] with
    an empty mapping, on a state where that member was unset, [extend_atom]
    produces what it produced before. *)
Theorem empty_values_render_nothing (st : State) (entry : Element) :
  (arxiv_comment st = None →
   extend_atom (comment EmptyString st) entry = extend_atom st entry)
  ∧ (arxiv_journal_ref st = None →
     extend_atom (journal_ref EmptyString st) entry = extend_atom st entry)
  ∧ (arxiv_doi st = None →
     extend_atom (doi [] st) entry = extend_atom st entry)
  ∧ (arxiv_primary_category st = None →
     extend_atom (primary_category [] st) entry = extend_atom st entry).
Proof.
  repeat split; intros Hunset; rewrite !extend_atom_closed_form; f_equal.
  - unfold comment_elements at 2. rewrite Hunset. reflexivity.
  - unfold journal_ref_elements at 2. rewrite Hunset. reflexivity.
  - unfold doi_elements at 2. rewrite Hunset. reflexivity.
  - unfold primary_category_elements at 2. rewrite Hunset. reflexivity.
Qed.

End RenderFurther.

Lemma extend_rss_keeps_children_witness :
  ∃ c' : Etree.Element,
    Etree.children
      (@ArxivEntryExtension.extend_rss Domain.value_format_str "arxiv.org"
         Rendered.sample_state Rendered.sample_entry) !! 0%nat = Some c'
    ∧ Etree.tag c' = "title" ∧ Etree.attrib c' = []
    ∧ Etree.children c' = []
    ∧ ("title" ≠ "description" →
       c' = Rendered.text_element "title" "A title").
Proof.
  apply (@extend_rss_keeps_children Domain.value_format_str "arxiv.org"
           Rendered.sample_state Rendered.sample_entry 0
           (Rendered.text_element "title" "A title")).
  reflexivity.
Defined.

Lemma extend_atom_keeps_children_witness :
  ∃ c' : Etree.Element,
    Etree.children
      (@ArxivEntryExtension.extend_atom Domain.value_format_str
         Rendered.sample_state Further.sample_atom_entry) !! 1%nat = Some c'
    ∧ Etree.tag c' = "author" ∧ Etree.attrib c' = [] ∧ Etree.text c' = None
    ∧ Etree.children Further.sample_author_element
        `prefix_of` Etree.children c'
    ∧ ("author" ≠ "author" → c' = Further.sample_author_element).
Proof.
  apply (@extend_atom_keeps_children Domain.value_format_str
           Rendered.sample_state Further.sample_atom_entry 1
           Further.sample_author_element).
  reflexivity.
Defined.

Lemma affiliation_round_trip_witness :
  Etree.children
    (@ArxivEntryExtension.extend_atom Domain.value_format_str
       (ArxivEntryExtension.affiliation "Very Real Sr."
          ["Cornell University"; "arXiv"] ArxivEntryExtension.init)
       Further.sample_atom_entry) !! 1%nat =
  Some (Etree.mkElement "author" [] None
          [ Etree.mkElement "name" [] (Some "Very Real Sr.") [];
            Etree.mkElement "email" [] (Some "real@example.org") [];
            Etree.mkElement "{http://arxiv.org/schemas/atom}affiliation" []
              (Some "Cornell University") [];
            Etree.mkElement "{http://arxiv.org/schemas/atom}affiliation" []
              (Some "arXiv") [] ]).
Proof.
  apply (@affiliation_round_trip Domain.value_format_str
           ArxivEntryExtension.init "Very Real Sr."
           ["Cornell University"; "arXiv"] Further.sample_atom_entry 1
           Further.sample_author_element
           (Etree.mkElement "name" [] (Some "Very Real Sr.") [])
           [] [Etree.mkElement "email" [] (Some "real@example.org") []]);
    try reflexivity.
  constructor; [discriminate|constructor].
Defined.

Lemma unlisted_author_unchanged_witness :
  Etree.children
    (@ArxivEntryExtension.extend_atom Domain.value_format_str
       Rendered.sample_state Further.sample_atom_entry) !! 2%nat =
  Some (Etree.mkElement "author" [] None
          [Etree.mkElement "name" [] (Some "L Emeno") []]).
Proof.
  apply (@unlisted_author_unchanged Domain.value_format_str
           Rendered.sample_state Further.sample_atom_entry 2).
  - reflexivity.
  - intros c name Hc _ Htext. apply list_elem_of_singleton in Hc.
    subst c. injection Htext as <-. reflexivity.
Defined.

Lemma empty_values_render_nothing_witness :
  @ArxivEntryExtension.extend_atom Domain.value_format_str
    (ArxivEntryExtension.comment EmptyString ArxivEntryExtension.init)
    Further.sample_atom_entry =
  @ArxivEntryExtension.extend_atom Domain.value_format_str
    ArxivEntryExtension.init Further.sample_atom_entry.
Proof.
  apply (proj1 (@empty_values_render_nothing Domain.value_format_str
                  ArxivEntryExtension.init Further.sample_atom_entry)).
  reflexivity.
Defined.

(** ** Namespaces of the appended elements *)

Section NamespaceFacts.
Context `{Domain.FormatStr}.
Import PyStr Domain Etree ArxivEntryExtension Rendered Further.

Lemma arxiv_namespace_declared (local : string) :
  in_declared_namespace ("{http://arxiv.org/schemas/atom}" +:+ local).
Proof.
  exists "arxiv", "http://arxiv.org/schemas/atom". split.
  - apply list_elem_of_In. cbn. tauto.
  - induction local; reflexivity.
Qed.

Lemma media_namespace_declared (local : string) :
  in_declared_namespace ("{http://search.yahoo.com/mrss}" +:+ local).
Proof.
  exists "media", "http://search.yahoo.com/mrss". split.
  - apply list_elem_of_In. cbn. tauto.
  - induction local; reflexivity.
Qed.

Lemma optional_text_element_declared (local : string)
  (field : option string) :
  Forall declared_deep
    (optional_text_element ("{http://arxiv.org/schemas/atom}" +:+ local)
       field).
Proof.
  unfold optional_text_element.
  destruct field as [txt|]; [case_decide|]; repeat constructor.
  apply arxiv_namespace_declared.
Qed.

Lemma media_groups_declared (st : State) :
  Forall declared_deep (media_groups st).
Proof.
  unfold media_groups. apply Forall_fmap, Forall_true. intros m. split.
  - apply (media_namespace_declared "group").
  - repeat constructor.
    + apply (media_namespace_declared "title").
    + apply (media_namespace_declared "content").
Qed.

Lemma affiliation_elements_declared (st : State) (a : Element) :
  Forall (fun y => in_declared_namespace (tag y)) (affiliation_elements st a).
Proof.
  unfold affiliation_elements. apply Forall_bind, Forall_true. intros c.
  apply Forall_fmap, Forall_true. intros x.
  apply (arxiv_namespace_declared "affiliation").
Qed.

(** X12: every element the renderers add carries a tag in a namespace that
    the feed-level extension declares: the children appended to the entry by
    [extend_atom] and by [extend_rss], the children of those (the title and
    content of a media group), and the affiliation elements appended to the
    existing children.  The namespace of the Atom-only entry extension is
    among those of the feed-level one. *)
Theorem appended_tags_in_declared_namespaces (base_server : string)
  (st : State) (entry : Element) :
  Forall
    (fun x => in_declared_namespace (tag x)
              ∧ Forall (fun y => in_declared_namespace (tag y)) (children x))
    (drop (length (children entry)) (children (extend_atom st entry)))
  ∧ Forall
      (fun x => in_declared_namespace (tag x)
                ∧ Forall (fun y => in_declared_namespace (tag y)) (children x))
      (drop (length (children entry))
         (children (extend_rss base_server st entry)))
  ∧ Forall2
      (fun c c' =>
         Forall (fun y => in_declared_namespace (tag y))
           (drop (length (children c)) (children c')))
      (children entry)
      (take (length (children entry)) (children (extend_atom st entry)))
  ∧ ArxivAtomExtension.extend_ns ⊆ ArxivExtension.extend_ns.
Proof.
  rewrite extend_atom_closed_form, extend_rss_closed_form.
  rewrite !children_set_children.
  rewrite !drop_app_length' by (by rewrite length_fmap).
  rewrite take_app_length' by (by rewrite length_fmap).
  repeat split.
  - rewrite !Forall_app. repeat split.
    + apply (optional_text_element_declared "comment").
    + unfold primary_category_elements.
      destruct (arxiv_primary_category st) as [[|p ps]|];
        repeat constructor.
      apply (arxiv_namespace_declared "primary_category").
    + apply (optional_text_element_declared "journal_ref").
    + unfold doi_elements. destruct (arxiv_doi st); [|constructor].
      apply Forall_fmap, Forall_true. intros d. split; [|constructor].
      apply (arxiv_namespace_declared "doi").
    + apply media_groups_declared.
  - apply media_groups_declared.
  - apply Forall2_fmap_r, Forall_Forall2_diag, Forall_true. intros c.
    unfold compose, with_affiliations. case_decide.
    + rewrite children_set_children, drop_app_length.
      apply affiliation_elements_declared.
    + rewrite drop_all. constructor.
  - intros x Hx. apply list_elem_of_singleton in Hx. subst x.
    apply list_elem_of_In. cbn. tauto.
Qed.

End NamespaceFacts.

(** ** Order of population *)

Section SetterFurther.
Import Domain Etree ArxivEntryExtension.

(** X13: the order in which different members are populated does not
    matter: setters of different members commute, and so do two calls of
    [affiliation] for different full names. *)
Theorem setters_commute (st : State) :
  (∀ n n' l l', n ≠ n' →
     affiliation n l (affiliation n' l' st) =
     affiliation n' l' (affiliation n l st))
  ∧ (∀ a m, author a (media m st) = media m (author a st))
  ∧ (∀ a t, author a (comment t st) = comment t (author a st))
  ∧ (∀ a t, author a (primary_category t st) =
            primary_category t (author a st))
  ∧ (∀ a t, author a (journal_ref t st) = journal_ref t (author a st))
  ∧ (∀ a d, author a (doi d st) = doi d (author a st))
  ∧ (∀ a n l, author a (affiliation n l st) = affiliation n l (author a st))
  ∧ (∀ m t, media m (comment t st) = comment t (media m st))
  ∧ (∀ m t, media m (primary_category t st) =
            primary_category t (media m st))
  ∧ (∀ m t, media m (journal_ref t st) = journal_ref t (media m st))
  ∧ (∀ m d, media m (doi d st) = doi d (media m st))
  ∧ (∀ m n l, media m (affiliation n l st) = affiliation n l (media m st))
  ∧ (∀ t p, comment t (primary_category p st) =
            primary_category p (comment t st))
  ∧ (∀ t j, comment t (journal_ref j st) = journal_ref j (comment t st))
  ∧ (∀ t d, comment t (doi d st) = doi d (comment t st))
  ∧ (∀ t n l, comment t (affiliation n l st) =
              affiliation n l (comment t st))
  ∧ (∀ p j, primary_category p (journal_ref j st) =
            journal_ref j (primary_category p st))
  ∧ (∀ p d, primary_category p (doi d st) = doi d (primary_category p st))
  ∧ (∀ p n l, primary_category p (affiliation n l st) =
              affiliation n l (primary_category p st))
  ∧ (∀ j d, journal_ref j (doi d st) = doi d (journal_ref j st))
  ∧ (∀ j n l, journal_ref j (affiliation n l st) =
              affiliation n l (journal_ref j st))
  ∧ (∀ d n l, doi d (affiliation n l st) = affiliation n l (doi d st)).
Proof.
  split; [|repeat split; intros; reflexivity].
  intros n n' l l' Hne. unfold affiliation. cbn. f_equal.
  by apply insert_insert_ne.
Qed.

End SetterFurther.

Lemma setters_commute_witness :
  ArxivEntryExtension.affiliation "Very Real Sr." ["Cornell University"]
    (ArxivEntryExtension.affiliation "L Emeno" [] ArxivEntryExtension.init) =
  ArxivEntryExtension.affiliation "L Emeno" []
    (ArxivEntryExtension.affiliation "Very Real Sr." ["Cornell University"]
       ArxivEntryExtension.init).
Proof.
  apply (proj1 (setters_commute ArxivEntryExtension.init)).
  discriminate.
Defined.

(** ** The configuration class *)

Section FactoryFacts.
Import PyStr Factory.

Lemma lower_char_idem (c : ascii) : lower_char (lower_char c) = lower_char c.
Proof. destruct c as [[] [] [] [] [] [] [] []]; reflexivity. Qed.

Lemma upper_char_lower_char (c : ascii) :
  upper_char (lower_char c) = upper_char c.
Proof. destruct c as [[] [] [] [] [] [] [] []]; reflexivity. Qed.

Lemma is_cased_lower_char (c : ascii) : is_cased (lower_char c) = is_cased c.
Proof. destruct c as [[] [] [] [] [] [] [] []]; reflexivity. Qed.

(** Title-casing does not see the letter case of its input. *)
Lemma title_from_lower (previous_is_cased : bool) (s : string) :
  title_from previous_is_cased (lower s) = title_from previous_is_cased s.
Proof.
  revert previous_is_cased. induction s as [|c s IH]; intros b; [done|].
  cbn [lower title_from].
  rewrite lower_char_idem, upper_char_lower_char, is_cased_lower_char.
  by rewrite IH.
Qed.

Lemma is_ascii_lower_char (c : ascii) :
  (nat_of_ascii (lower_char c) <? 128)%nat = (nat_of_ascii c <? 128)%nat.
Proof. destruct c as [[] [] [] [] [] [] [] []]; reflexivity. Qed.

Lemma is_ascii_lower (s : string) : is_ascii (lower s) = is_ascii s.
Proof.
  induction s as [|c s IH]; [done|].
  cbn [lower is_ascii]. by rewrite is_ascii_lower_char, IH.
Qed.

(** X14: for configuration names of ASCII characters, the configuration
    class that [create_web_app] imports is [feed.config.Production] when the
    environment does not set [ARXIV_FEED_CONFIGURATION], and it does not
    depend on the letter case in which the variable is written: when the
    names of two environments agree up to case, the class imported for one
    is the class imported for the other. *)
Theorem config_import_string_case_insensitive :
  (∀ environ : gmap string string,
     environ !! "ARXIV_FEED_CONFIGURATION" = None →
     config_import_string environ = Some "feed.config.Production")
  ∧ (∀ (environ environ' : gmap string string) (path : string),
       lower (configuration environ) = lower (configuration environ') →
       config_import_string environ = Some path →
       config_import_string environ' = Some path).
Proof.
  split.
  - intros environ Hunset. unfold config_import_string, configuration.
    by rewrite Hunset.
  - intros environ environ' path Hlow.
    unfold config_import_string, title.
    rewrite <- (is_ascii_lower (configuration environ)).
    rewrite <- (is_ascii_lower (configuration environ')).
    rewrite <- (title_from_lower false (configuration environ)).
    rewrite <- (title_from_lower false (configuration environ')).
    by rewrite Hlow.
Qed.

End FactoryFacts.

Lemma config_import_string_case_insensitive_witness :
  Factory.config_import_string
    {[ "ARXIV_FEED_CONFIGURATION" := "development" ]} =
  Some "feed.config.Development".
Proof.
  apply (proj2 config_import_string_case_insensitive
           {[ "ARXIV_FEED_CONFIGURATION" := "DEVELOPMENT" ]}
           {[ "ARXIV_FEED_CONFIGURATION" := "development" ]}
           "feed.config.Development").
  - reflexivity.
  - reflexivity.
Defined.

(** ** From a setter to the rendered entry *)

Section RoundTrips.
Context `{Domain.FormatStr}.
Import PyStr Domain Etree ArxivEntryExtension Rendered Further.

(** X15: a non-empty comment handed to [comment] is what [extend_atom]
    renders: the first child it appends to the entry is the comment element
    with that text, whatever comment the state held before. *)
Theorem comment_round_trip (st : State) (entry : Element) (t : string) :
  t ≠ EmptyString →
  children (extend_atom (comment t st) entry) !! length (children entry) =
  Some (mkElement "{http://arxiv.org/schemas/atom}comment" [] (Some t) []).
Proof.
  intros Ht. rewrite extend_atom_closed_form, children_set_children.
  rewrite lookup_app_r by (by rewrite length_fmap).
  rewrite length_fmap, Nat.sub_diag.
  unfold comment_elements, optional_text_element. cbn [comment arxiv_comment].
  by rewrite decide_False.
Qed.

(** X16: only the keys of the DOI mapping are rendered: two mappings with
    the same keys in the same order give the same entry, whatever their
    values. *)
Theorem doi_values_not_rendered (st : State) (entry : Element)
  (d d' : list (string * string)) :
  d.*1 = d'.*1 →
  extend_atom (doi d st) entry = extend_atom (doi d' st) entry.
Proof.
  intros Hkeys. rewrite !extend_atom_closed_form. f_equal.
  assert (doi_elements (doi d st) = doi_elements (doi d' st)) as Hdoi.
  { assert (∀ l : list (string * string),
              (fun entry =>
                 text_element "{http://arxiv.org/schemas/atom}doi" (fst entry))
                <$> l =
              text_element "{http://arxiv.org/schemas/atom}doi" <$> l.*1)
      as Hmap by (intros l; by rewrite <- list_fmap_compose).
    unfold doi_elements. cbn [doi arxiv_doi]. by rewrite !Hmap, Hkeys. }
  unfold comment_elements, primary_category_elements, journal_ref_elements,
    media_groups, with_affiliations, affiliation_elements, listed_affiliations
    in *.
  cbn [doi arxiv_comment arxiv_primary_category arxiv_journal_ref arxiv_media
       arxiv_affiliations] in *.
  by rewrite Hdoi.
Qed.

(** X17: a media item handed to [media] is rendered last by both renderers:
    the last child of the entry is the group of that item, with its title
    and its content element. *)
Theorem media_round_trip (base_server : string) (st : State)
  (entry : Element) (m : Media) :
  last (children (extend_atom (media m st) entry)) =
    Some (mkElement "{http://search.yahoo.com/mrss}group" [] None
            [ mkElement "{http://search.yahoo.com/mrss}title" []
                (Some (title m)) [];
              mkElement "{http://search.yahoo.com/mrss}content"
                [("url", url m); ("type", type m)] None [] ])
  ∧ last (children (extend_rss base_server (media m st) entry)) =
    Some (mkElement "{http://search.yahoo.com/mrss}group" [] None
            [ mkElement "{http://search.yahoo.com/mrss}title" []
                (Some (title m)) [];
              mkElement "{http://search.yahoo.com/mrss}content"
                [("url", url m); ("type", type m)] None [] ]).
Proof.
  rewrite extend_atom_closed_form, extend_rss_closed_form.
  rewrite !children_set_children. unfold media_groups.
  cbn [media arxiv_media]. rewrite !fmap_app. cbn [fmap list_fmap].
  rewrite !app_assoc. by rewrite !last_snoc.
Qed.

End RoundTrips.

Lemma comment_round_trip_witness :
  Etree.children
    (@ArxivEntryExtension.extend_atom Domain.value_format_str
       (ArxivEntryExtension.comment "10 pages" Rendered.sample_state)
       Further.sample_atom_entry) !! 3%nat =
  Some (Etree.mkElement "{http://arxiv.org/schemas/atom}comment" []
          (Some "10 pages") []).
Proof.
  apply (@comment_round_trip Domain.value_format_str Rendered.sample_state
           Further.sample_atom_entry "10 pages").
  discriminate.
Defined.

Lemma doi_values_not_rendered_witness :
  @ArxivEntryExtension.extend_atom Domain.value_format_str
    (ArxivEntryExtension.doi [("10.1000/182", "first")]
       ArxivEntryExtension.init) Further.sample_atom_entry =
  @ArxivEntryExtension.extend_atom Domain.value_format_str
    (ArxivEntryExtension.doi [("10.1000/182", "second")]
       ArxivEntryExtension.init) Further.sample_atom_entry.
Proof.
  apply (@doi_values_not_rendered Domain.value_format_str
           ArxivEntryExtension.init Further.sample_atom_entry
           [("10.1000/182", "first")] [("10.1000/182", "second")]).
  reflexivity.
Defined.
